(** * Table booking backend: persistence driver and reservation service

    A shallow embedding of [postgres_driver.py], [models/models.py] and
    [backend.py].

    Modelling conventions.
    - A [UUID] is a natural number, a [datetime] is an integer count of
      microseconds, [timedelta(minutes=m)] is [m * 60000000]; the range
      limits of Python's [datetime] are not represented.
    - The PostgreSQL database is the record [DB]: one list of rows per SQL
      table, in storage order.  Every table is created by
      [create_table_from_entity], so its [id] column is a primary key:
      an INSERT with a NULL or an already stored id is refused.  Connection
      failures and column-size limits of the storage engine are not
      represented, and DDL statements are accepted.
    - The driver and the backend run in a state-and-exception monad over
      [World]: the database, the trace of SQL statements sent so far, and
      the two sources of nondeterminism ([uuid4()] and [datetime.now()]),
      read through a counter.
    - An [id] may be [None] on a Python object ([update] and
      [update_booking] test for it); the other attributes have the types
      the dataclasses declare.
    - The reason returned by [check_table_availability] and the messages
      of the exceptions are kept as structured values instead of the
      formatted text.
    - Python keyword defaults are passed explicitly. *)

From Stdlib Require Import ZArith NArith List String Ascii Bool Lia.
From Stdlib Require Import Permutation Sorted.
Import ListNotations.

Local Open Scope string_scope.
Local Open Scope Z_scope.

(* ------------------------------------------------------------------ *)
(** ** Python values *)

Definition UUID := N.
Definition datetime := Z.
Definition timedelta := Z.

(** [timedelta(minutes=m)] *)
Definition timedelta_minutes (m : Z) : timedelta := m * 60000000.

(** Values that cross the driver boundary (attribute values, SQL parameters). *)
Inductive pyval :=
| PNone
| PStr (s : string)
| PInt (z : Z)
| PBool (b : bool)
| PUuid (u : UUID)
| PDatetime (t : datetime).

(** SQL [column = %s]: a NULL on either side never compares equal. *)
Definition sql_eq (a b : pyval) : bool :=
  match a, b with
  | PStr s, PStr t => String.eqb s t
  | PInt x, PInt y => Z.eqb x y
  | PBool x, PBool y => Bool.eqb x y
  | PUuid x, PUuid y => N.eqb x y
  | PDatetime x, PDatetime y => Z.eqb x y
  | _, _ => false
  end.

(** SQL [ORDER BY column] (ascending, NULLs last). *)
Definition sql_leb (a b : pyval) : bool :=
  match a, b with
  | PNone, PNone => true
  | PNone, _ => false
  | _, PNone => true
  | PStr s, PStr t => String.leb s t
  | PInt x, PInt y => Z.leb x y
  | PBool x, PBool y => implb x y
  | PUuid x, PUuid y => N.leb x y
  | PDatetime x, PDatetime y => Z.leb x y
  | _, _ => true
  end.

Definition option_uuid_eqb (a b : option UUID) : bool :=
  match a, b with
  | Some x, Some y => N.eqb x y
  | None, None => true
  | _, _ => false
  end.

Definition uuid_val (o : option UUID) : pyval :=
  match o with Some u => PUuid u | None => PNone end.

(* ------------------------------------------------------------------ *)
(** ** models.py *)

Module User.
Record t := mk {
  name : string;
  phone : string;
  email : string;
  id : option UUID;
  created_at : datetime
}.
End User.

Module Table.
Record t := mk {
  number : Z;
  capacity : Z;
  location : string;
  id : option UUID;
  is_available : bool
}.
End Table.

Module Booking.
Record t := mk {
  user_id : UUID;
  table_id : UUID;
  booking_date : datetime;
  guest_count : Z;
  id : option UUID;
  duration_minutes : Z;
  status : string;
  special_requests : string;
  created_at : datetime;
  updated_at : datetime
}.

Definition set_status (s : string) (b : t) : t :=
  mk (user_id b) (table_id b) (booking_date b) (guest_count b) (id b)
     (duration_minutes b) s (special_requests b) (created_at b) (updated_at b).

Definition set_updated_at (d : datetime) (b : t) : t :=
  mk (user_id b) (table_id b) (booking_date b) (guest_count b) (id b)
     (duration_minutes b) (status b) (special_requests b) (created_at b) d.
End Booking.

(** *** Dataclass descriptors, as [dataclasses.fields] reports them *)

(** Type annotations.  A [py_base] is a plain class or, for [T_other],
    anything that equals none of the six classes the driver knows (a
    [Literal] member, a nested generic, a user class).  [Subscripted] is an
    annotation for which [typing.get_origin] is not [None] ([Optional[X]],
    [Union[...]], [Literal[...]], [List[X]]), with its [get_args]. *)
Inductive py_base :=
| T_UUID | T_str | T_int | T_bool | T_datetime | T_float
| T_NoneType
| T_other.

Inductive py_type :=
| Plain (b : py_base)
| Subscripted (args : list py_base).

(** [Field.default] and [Field.default_factory]: the [MISSING] sentinel,
    the value [None], or anything else. *)
Inductive py_default := MISSING | IsNone | Supplied.

Record Field := mkField {
  field_name : string;
  field_type : py_type;
  default : py_default;
  default_factory : py_default
}.

Record dataclass := mkClass {
  class_name : string;
  is_dataclass : bool;
  fields : list Field
}.

Definition required (n : string) (ty : py_type) : Field :=
  mkField n ty MISSING MISSING.
Definition with_default (n : string) (ty : py_type) : Field :=
  mkField n ty Supplied MISSING.
Definition with_factory (n : string) (ty : py_type) : Field :=
  mkField n ty MISSING Supplied.

Definition Literal3 : py_type := Subscripted [T_other; T_other; T_other].

Definition User_class : dataclass :=
  mkClass "User" true
    [ required "name" (Plain T_str); required "phone" (Plain T_str); required "email" (Plain T_str);
      with_factory "id" (Plain T_UUID); with_factory "created_at" (Plain T_datetime) ].

Definition Table_class : dataclass :=
  mkClass "Table" true
    [ required "number" (Plain T_int); required "capacity" (Plain T_int);
      required "location" Literal3;
      with_factory "id" (Plain T_UUID); with_default "is_available" (Plain T_bool) ].

Definition Booking_class : dataclass :=
  mkClass "Booking" true
    [ required "user_id" (Plain T_UUID); required "table_id" (Plain T_UUID);
      required "booking_date" (Plain T_datetime); required "guest_count" (Plain T_int);
      with_factory "id" (Plain T_UUID); with_default "duration_minutes" (Plain T_int);
      with_default "status" Literal3;
      with_default "special_requests" (Plain T_str);
      with_factory "created_at" (Plain T_datetime); with_factory "updated_at" (Plain T_datetime) ].

(* ------------------------------------------------------------------ *)
(** ** The world: database, statement trace, sources of fresh values *)

Record DB := mkDB {
  user : list User.t;
  restaurant_table : list Table.t;
  booking : list Booking.t
}.

Inductive Stmt :=
| SELECT (table : string) (filters : list (string * pyval))
         (order_by : option string) (limit : option Z)
| INSERT (table : string) (values : list (option pyval))
| UPDATE (table : string) (set_clauses : list (string * pyval)) (id : UUID)
| DELETE (table : string) (id : UUID)
| DROP_TABLE (table : string)
| CREATE_TABLE (table : string) (columns : list string).

Record World := mkWorld {
  store : DB;
  trace : list Stmt;
  uuid4_source : nat -> UUID;
  clock : nat -> datetime;
  tick : nat
}.

Definition with_store (d : DB) (w : World) : World :=
  mkWorld d (trace w) (uuid4_source w) (clock w) (tick w).

Definition with_trace (t : list Stmt) (w : World) : World :=
  mkWorld (store w) t (uuid4_source w) (clock w) (tick w).

Definition with_tick (n : nat) (w : World) : World :=
  mkWorld (store w) (trace w) (uuid4_source w) (clock w) n.

(* ------------------------------------------------------------------ *)
(** ** Exceptions and the monad *)

(** Why [check_table_availability] answers [False]. *)
Inductive Reason :=
| TableNotFound
| TableUnavailable
| AlreadyBooked (existing_booking : Booking.t).

Inductive Message :=
| UserExists (name : string)
| TableNumberExists (number : Z)
| CannotCreateBooking (reason : option Reason)
| CannotUpdateBooking (reason : option Reason)
| EntityWithoutId
| NotADataclass (name : string).

Inductive DriverOp := OpCreateTable | OpCreate | OpRead | OpUpdate | OpDelete.

Inductive Cause :=
| UniqueViolation
| NotNullViolation
| UndefinedColumn
| NegativeLimit
| AttributeError
| BadSetList
| NoRowReturned.

Inductive exn :=
| ValueError (m : Message)
| Exception (op : DriverOp) (cause : Cause).

Inductive Result (A : Type) :=
| Ok (a : A)
| Raise (e : exn).
Arguments Ok {A} a.
Arguments Raise {A} e.

Definition M (A : Type) : Type := World -> Result A * World.

Definition ret {A} (a : A) : M A := fun w => (Ok a, w).

Definition bind {A B} (c : M A) (k : A -> M B) : M B :=
  fun w =>
    match c w with
    | (Ok a, w') => k a w'
    | (Raise e, w') => (Raise e, w')
    end.

Definition raise {A} (e : exn) : M A := fun w => (Raise e, w).

Declare Scope py_scope.
Delimit Scope py_scope with py.
Notation "x <- c ;; k" := (bind c (fun x => k))
  (at level 61, c at next level, right associativity) : py_scope.
Notation "c ;;; k" := (bind c (fun _ => k))
  (at level 61, right associativity) : py_scope.
Local Open Scope py_scope.

Definition execute (s : Stmt) : M unit :=
  fun w => (Ok tt, with_trace (trace w ++ [s]) w).

Definition get_store : M DB := fun w => (Ok (store w), w).

Definition put_store (d : DB) : M unit := fun w => (Ok tt, with_store d w).

(** [uuid4()] *)
Definition uuid4 : M UUID :=
  fun w => (Ok (uuid4_source w (tick w)), with_tick (S (tick w)) w).

(** [datetime.now()] *)
Definition datetime_now : M datetime :=
  fun w => (Ok (clock w (tick w)), with_tick (S (tick w)) w).

(* ------------------------------------------------------------------ *)
(** ** postgres_driver.py *)

(** What the driver needs from an entity: its dataclass descriptor, the
    SQL table the backend keeps it in, attribute access by name, and the
    rows of that table. [copy_attr f src dst] is [dst] with column [f]
    taken from [src] (one [SET f = %s] clause); [getattr] answers [None]
    for a name that is not an attribute. *)
Class Entity (A : Type) := {
  entity_class : dataclass;
  table_name : string;
  getattr : A -> string -> option pyval;
  copy_attr : string -> A -> A -> A;
  rows : DB -> list A;
  with_rows : list A -> DB -> DB
}.

Definition User_getattr (u : User.t) (f : string) : option pyval :=
  if String.eqb f "name" then Some (PStr (User.name u))
  else if String.eqb f "phone" then Some (PStr (User.phone u))
  else if String.eqb f "email" then Some (PStr (User.email u))
  else if String.eqb f "id" then Some (uuid_val (User.id u))
  else if String.eqb f "created_at" then Some (PDatetime (User.created_at u))
  else None.

Definition User_copy_attr (f : string) (s d : User.t) : User.t :=
  User.mk
    (if String.eqb f "name" then User.name s else User.name d)
    (if String.eqb f "phone" then User.phone s else User.phone d)
    (if String.eqb f "email" then User.email s else User.email d)
    (if String.eqb f "id" then User.id s else User.id d)
    (if String.eqb f "created_at" then User.created_at s else User.created_at d).

#[export] Instance User_entity : Entity User.t := {|
  entity_class := User_class;
  table_name := "user";
  getattr := User_getattr;
  copy_attr := User_copy_attr;
  rows := user;
  with_rows := fun l d => mkDB l (restaurant_table d) (booking d)
|}.

Definition Table_getattr (t : Table.t) (f : string) : option pyval :=
  if String.eqb f "number" then Some (PInt (Table.number t))
  else if String.eqb f "capacity" then Some (PInt (Table.capacity t))
  else if String.eqb f "location" then Some (PStr (Table.location t))
  else if String.eqb f "id" then Some (uuid_val (Table.id t))
  else if String.eqb f "is_available" then Some (PBool (Table.is_available t))
  else None.

Definition Table_copy_attr (f : string) (s d : Table.t) : Table.t :=
  Table.mk
    (if String.eqb f "number" then Table.number s else Table.number d)
    (if String.eqb f "capacity" then Table.capacity s else Table.capacity d)
    (if String.eqb f "location" then Table.location s else Table.location d)
    (if String.eqb f "id" then Table.id s else Table.id d)
    (if String.eqb f "is_available" then Table.is_available s
     else Table.is_available d).

#[export] Instance Table_entity : Entity Table.t := {|
  entity_class := Table_class;
  table_name := "restaurant_table";
  getattr := Table_getattr;
  copy_attr := Table_copy_attr;
  rows := restaurant_table;
  with_rows := fun l d => mkDB (user d) l (booking d)
|}.

Definition Booking_getattr (b : Booking.t) (f : string) : option pyval :=
  if String.eqb f "user_id" then Some (PUuid (Booking.user_id b))
  else if String.eqb f "table_id" then Some (PUuid (Booking.table_id b))
  else if String.eqb f "booking_date" then Some (PDatetime (Booking.booking_date b))
  else if String.eqb f "guest_count" then Some (PInt (Booking.guest_count b))
  else if String.eqb f "id" then Some (uuid_val (Booking.id b))
  else if String.eqb f "duration_minutes" then Some (PInt (Booking.duration_minutes b))
  else if String.eqb f "status" then Some (PStr (Booking.status b))
  else if String.eqb f "special_requests" then Some (PStr (Booking.special_requests b))
  else if String.eqb f "created_at" then Some (PDatetime (Booking.created_at b))
  else if String.eqb f "updated_at" then Some (PDatetime (Booking.updated_at b))
  else None.

Definition Booking_copy_attr (f : string) (s d : Booking.t) : Booking.t :=
  Booking.mk
    (if String.eqb f "user_id" then Booking.user_id s else Booking.user_id d)
    (if String.eqb f "table_id" then Booking.table_id s else Booking.table_id d)
    (if String.eqb f "booking_date" then Booking.booking_date s
     else Booking.booking_date d)
    (if String.eqb f "guest_count" then Booking.guest_count s
     else Booking.guest_count d)
    (if String.eqb f "id" then Booking.id s else Booking.id d)
    (if String.eqb f "duration_minutes" then Booking.duration_minutes s
     else Booking.duration_minutes d)
    (if String.eqb f "status" then Booking.status s else Booking.status d)
    (if String.eqb f "special_requests" then Booking.special_requests s
     else Booking.special_requests d)
    (if String.eqb f "created_at" then Booking.created_at s
     else Booking.created_at d)
    (if String.eqb f "updated_at" then Booking.updated_at s
     else Booking.updated_at d).

#[export] Instance Booking_entity : Entity Booking.t := {|
  entity_class := Booking_class;
  table_name := "booking";
  getattr := Booking_getattr;
  copy_attr := Booking_copy_attr;
  rows := booking;
  with_rows := fun l d => mkDB (user d) (restaurant_table d) l
|}.

Section Driver.
Context {A : Type} `{Entity A}.

(** [[f.name for f in fields(entity)]] *)
Definition field_names : list string := map field_name (fields entity_class).

Definition is_column (c : string) : bool := existsb (String.eqb c) field_names.

Definition column (c : string) (r : A) : pyval :=
  match getattr r c with Some v => v | None => PNone end.

(** [WHERE k1 = %s AND k2 = %s ...] *)
Definition row_matches (filters : list (string * pyval)) (r : A) : bool :=
  forallb (fun kv => sql_eq (column (fst kv) r) (snd kv)) filters.

(** [WHERE id = %s] *)
Definition has_id (u : UUID) (r : A) : bool := row_matches [("id", PUuid u)] r.

Fixpoint insert_by (c : string) (x : A) (l : list A) : list A :=
  match l with
  | [] => [x]
  | y :: l' =>
      if sql_leb (column c x) (column c y) then x :: l
      else y :: insert_by c x l'
  end.

(** [ORDER BY c]: rows with equal keys keep their storage order. *)
Fixpoint sort_by (c : string) (l : list A) : list A :=
  match l with
  | [] => []
  | x :: l' => insert_by c x (sort_by c l')
  end.

(** [PostgresDriver.read].  [filters] is the dictionary in insertion
    order; an empty [order_by] and a zero [limit] are falsy and add no
    clause; [order_by] is a column name. *)
Definition read (filters : list (string * pyval)) (limit : option Z)
           (order_by : option string) : M (list A) :=
  execute (SELECT table_name filters order_by limit) ;;;
  if negb (forallb is_column (map fst filters)) then
    raise (Exception OpRead UndefinedColumn)
  else
    let order_by := match order_by with
                    | Some c => if String.eqb c "" then None else Some c
                    | None => None
                    end in
    let limit := match limit with
                 | Some n => if n =? 0 then None else Some n
                 | None => None
                 end in
    if match order_by with Some c => negb (is_column c) | None => false end then
      raise (Exception OpRead UndefinedColumn)
    else if match limit with Some n => n <? 0 | None => false end then
      raise (Exception OpRead NegativeLimit)
    else
      d <- get_store ;;
      let results := filter (row_matches filters) (rows d) in
      let results := match order_by with
                     | Some c => sort_by c results
                     | None => results
                     end in
      let results := match limit with
                     | Some n => firstn (Z.to_nat n) results
                     | None => results
                     end in
      ret results.

(** [PostgresDriver.read_by_id] *)
Definition read_by_id (entity_id : UUID) : M (option A) :=
  results <- read [("id", PUuid entity_id)] (Some 1) None ;;
  ret (hd_error results).

(** [PostgresDriver.create]: the INSERT appends the row; the primary key
    refuses a NULL id and an id that is already stored.  The returned
    entity carries the values of the inserted row, which are its own. *)
Definition create (entity : A) : M A :=
  execute (INSERT table_name (map (getattr entity) field_names)) ;;;
  match getattr entity "id" with
  | Some (PUuid u) =>
      d <- get_store ;;
      if existsb (has_id u) (rows d) then
        raise (Exception OpCreate UniqueViolation)
      else
        put_store (with_rows (rows d ++ [entity]) d) ;;;
        ret entity
  | _ => raise (Exception OpCreate NotNullViolation)
  end.

(** [values.append(getattr(entity, field_name))] for each field. *)
Fixpoint collect_values (entity : A) (update_fields : list string)
  : option (list pyval) :=
  match update_fields with
  | [] => Some []
  | f :: fs =>
      match getattr entity f, collect_values entity fs with
      | Some v, Some vs => Some (v :: vs)
      | _, _ => None
      end
  end.

Fixpoint has_duplicate (l : list string) : bool :=
  match l with
  | [] => false
  | x :: l' => existsb (String.eqb x) l' || has_duplicate l'
  end.

(** The SET list applied to one row. *)
Definition assign (update_fields : list string) (entity row : A) : A :=
  fold_left (fun r f => copy_attr f entity r) update_fields row.

(** [PostgresDriver.update].  The statement is refused when the SET list
    is empty or names a column twice; [fetchone()] on an UPDATE that
    matched no row gives [None], and [dict(None)] raises inside the
    [try].  The entity is overwritten with the first returned row. *)
Definition update (entity : A) (update_fields : option (list string)) : M A :=
  match getattr entity "id" with
  | Some (PUuid entity_id) =>
      let update_fields :=
        match update_fields with
        | None =>
            filter (fun f => negb (String.eqb f "id" || String.eqb f "created_at"))
                   field_names
        | Some fs => fs
        end in
      match collect_values entity update_fields with
      | None => raise (Exception OpUpdate AttributeError)
      | Some values =>
          execute (UPDATE table_name (combine update_fields values) entity_id) ;;;
          if match update_fields with [] => true | _ => false end
             || has_duplicate update_fields then
            raise (Exception OpUpdate BadSetList)
          else
            d <- get_store ;;
            let updated :=
              map (fun r => if has_id entity_id r
                            then assign update_fields entity r else r)
                  (rows d) in
            put_store (with_rows updated d) ;;;
            match find (has_id entity_id) updated with
            | Some row => ret row
            | None => raise (Exception OpUpdate NoRowReturned)
            end
      end
  | _ => raise (ValueError EntityWithoutId)
  end.

(** [PostgresDriver.delete]: [cursor.rowcount > 0]. *)
Definition delete (entity_id : UUID) : M bool :=
  execute (DELETE table_name entity_id) ;;;
  d <- get_store ;;
  put_store (with_rows (filter (fun r => negb (has_id entity_id r)) (rows d)) d) ;;;
  ret (existsb (has_id entity_id) (rows d)).

End Driver.

(** *** Schema derivation *)

Definition is_NoneType (b : py_base) : bool :=
  match b with T_NoneType => true | _ => false end.

(** The first half of [_python_type_to_postgres]: an annotation with an
    origin is replaced by its first argument, or by its first argument
    that is not [NoneType] when [NoneType] is among them; with no
    arguments it stays what it is, which matches no known class. *)
Definition unwrap_annotation (field_type : py_type) : py_base :=
  match field_type with
  | Plain b => b
  | Subscripted [] => T_other
  | Subscripted (a :: args') =>
      if negb (existsb is_NoneType (a :: args')) then a
      else match find (fun x => negb (is_NoneType x)) (a :: args') with
           | Some x => x
           | None => a
           end
  end.

Definition _python_type_to_postgres (field_type : py_type) : string :=
  match unwrap_annotation field_type with
  | T_UUID => "UUID"
  | T_str => "VARCHAR(255)"
  | T_int => "INTEGER"
  | T_bool => "BOOLEAN"
  | T_datetime => "TIMESTAMP"
  | T_float => "REAL"
  | _ => "VARCHAR(255)"
  end.

(** [x is not None] on a [default] or [default_factory] slot. *)
Definition is_not_None (d : py_default) : bool :=
  match d with IsNone => false | _ => true end.

Inductive Constraint := NoConstraint | PRIMARY_KEY | NOT_NULL.

(** The [if is_primary_key: ... elif not has_default: ...] of the loop. *)
Definition column_constraint (field : Field) : Constraint :=
  let is_primary_key := String.eqb (field_name field) "id" in
  let has_default :=
    is_not_None (default field) || is_not_None (default_factory field) in
  if is_primary_key then PRIMARY_KEY
  else if negb has_default then NOT_NULL
  else NoConstraint.

Definition column_def (field : Field) : string :=
  (field_name field ++ " " ++ _python_type_to_postgres (field_type field))
  ++ match column_constraint field with
     | PRIMARY_KEY => " PRIMARY KEY"
     | NOT_NULL => " NOT NULL"
     | NoConstraint => ""
     end.




(* ------------------------------------------------------------------ *)
(** ** backend.py *)

Definition get_user_by_name (name : string) : M (option User.t) :=
  users <- read (A := User.t) [("name", PStr name)] (Some 1) None ;;
  ret (hd_error users).

Definition create_user (name phone email : string) : M User.t :=
  existing_user <- get_user_by_name name ;;
  match existing_user with
  | Some _ => raise (ValueError (UserExists name))
  | None =>
      id <- uuid4 ;;
      created_at <- datetime_now ;;
      create (User.mk name phone email (Some id) created_at)
  end.

Definition get_table_by_number (number : Z) : M (option Table.t) :=
  tables <- read (A := Table.t) [("number", PInt number)] (Some 1) None ;;
  ret (hd_error tables).

Definition create_table (number capacity : Z) (location : string)
           (is_available : bool) : M Table.t :=
  existing_table <- get_table_by_number number ;;
  match existing_table with
  | Some _ => raise (ValueError (TableNumberExists number))
  | None =>
      id <- uuid4 ;;
      create (Table.mk number capacity location (Some id) is_available)
  end.

Definition get_table_by_id (table_id : UUID) : M (option Table.t) :=
  read_by_id (A := Table.t) table_id.

Definition update_table (table : Table.t) (update_fields : option (list string))
  : M Table.t :=
  (if match update_fields with
      | None => true
      | Some fs => existsb (String.eqb "number") fs
      end
   then
     existing_table <- get_table_by_number (Table.number table) ;;
     match existing_table with
     | Some existing_table =>
         if negb (option_uuid_eqb (Table.id existing_table) (Table.id table))
         then raise (ValueError (TableNumberExists (Table.number table)))
         else ret tt
     | None => ret tt
     end
   else ret tt) ;;;
  update table update_fields.

Definition get_booking_by_id (booking_id : UUID) : M (option Booking.t) :=
  read_by_id (A := Booking.t) booking_id.

Definition get_all_bookings (filters : list (string * pyval))
           (order_by : option string) : M (list Booking.t) :=
  read (A := Booking.t) filters None order_by.

Definition get_bookings_by_table (table_id : UUID) : M (list Booking.t) :=
  get_all_bookings [("table_id", PUuid table_id)] (Some "booking_date").

(** [b.status in ("pending", "confirmed")] *)
Definition is_active (b : Booking.t) : bool :=
  String.eqb (Booking.status b) "pending"
  || String.eqb (Booking.status b) "confirmed".

Definition existing_end (existing_booking : Booking.t) : datetime :=
  Booking.booking_date existing_booking
  + timedelta_minutes (Booking.duration_minutes existing_booking).

(** [booking_date < existing_end and existing_start < booking_end] *)
Definition intersects (booking_date booking_end : datetime)
           (existing_booking : Booking.t) : bool :=
  (booking_date <? existing_end existing_booking)
  && (Booking.booking_date existing_booking <? booking_end).

(** The [for existing_booking in active_bookings] loop with its early
    return.  The reason keeps the colliding booking instead of the text
    rendered from it. *)
Fixpoint first_conflict (booking_date booking_end : datetime)
         (active_bookings : list Booking.t) : bool * option Reason :=
  match active_bookings with
  | [] => (true, None)
  | existing_booking :: rest =>
      if intersects booking_date booking_end existing_booking then
        (false, Some (AlreadyBooked existing_booking))
      else first_conflict booking_date booking_end rest
  end.

Definition check_table_availability (table_id : UUID) (booking_date : datetime)
           (duration_minutes : Z) (exclude_booking_id : option UUID)
  : M (bool * option Reason) :=
  table <- get_table_by_id table_id ;;
  match table with
  | None => ret (false, Some TableNotFound)
  | Some table =>
      if negb (Table.is_available table) then ret (false, Some TableUnavailable)
      else
        let booking_end := booking_date + timedelta_minutes duration_minutes in
        all_bookings <- get_bookings_by_table table_id ;;
        let active_bookings :=
          filter (fun b => is_active b
                           && negb (option_uuid_eqb (Booking.id b) exclude_booking_id))
                 all_bookings in
        ret (first_conflict booking_date booking_end active_bookings)
  end.

Definition create_booking (user_id table_id : UUID) (booking_date : datetime)
           (guest_count duration_minutes : Z) (status special_requests : string)
           (check_availability : bool) : M Booking.t :=
  (if check_availability then
     r <- check_table_availability table_id booking_date duration_minutes None ;;
     let '(is_available, reason) := r in
     if negb is_available then raise (ValueError (CannotCreateBooking reason))
     else ret tt
   else ret tt) ;;;
  id <- uuid4 ;;
  created_at <- datetime_now ;;
  updated_at <- datetime_now ;;
  create (Booking.mk user_id table_id booking_date guest_count (Some id)
                     duration_minutes status special_requests created_at updated_at).

Definition update_booking (booking : Booking.t)
           (update_fields : option (list string)) (check_availability : bool)
  : M Booking.t :=
  (if check_availability then
     match Booking.id booking with
     | Some booking_id =>
         existing_booking <- get_booking_by_id booking_id ;;
         match existing_booking with
         | Some existing_booking =>
             let time_changed :=
               negb (Booking.booking_date existing_booking
                     =? Booking.booking_date booking)
               || negb (Booking.duration_minutes existing_booking
                        =? Booking.duration_minutes booking) in
             let table_changed :=
               negb (N.eqb (Booking.table_id existing_booking)
                           (Booking.table_id booking)) in
             if time_changed || table_changed then
               r <- check_table_availability (Booking.table_id booking)
                      (Booking.booking_date booking)
                      (Booking.duration_minutes booking) (Some booking_id) ;;
               let '(is_available, reason) := r in
               if negb is_available then
                 raise (ValueError (CannotUpdateBooking reason))
               else ret tt
             else ret tt
         | None => ret tt
         end
     | None => ret tt
     end
   else ret tt) ;;;
  now <- datetime_now ;;
  let booking := Booking.set_updated_at now booking in
  let update_fields :=
    match update_fields with
    | None => None
    | Some fs =>
        if existsb (String.eqb "updated_at") fs then Some fs
        else Some (fs ++ ["updated_at"])%list
    end in
  update booking update_fields.

Definition confirm_booking (booking_id : UUID) : M (option Booking.t) :=
  booking <- get_booking_by_id booking_id ;;
  match booking with
  | Some booking =>
      let booking := Booking.set_status "confirmed" booking in
      b <- update_booking booking (Some ["status"]) true ;;
      ret (Some b)
  | None => ret None
  end.

Definition cancel_booking (booking_id : UUID) : M (option Booking.t) :=
  booking <- get_booking_by_id booking_id ;;
  match booking with
  | Some booking =>
      let booking := Booking.set_status "cancelled" booking in
      b <- update_booking booking (Some ["status"]) true ;;
      ret (Some b)
  | None => ret None
  end.

(** *** The remaining lookups, updates and deletions *)


Definition get_all_users (filters : list (string * pyval))
           (order_by : option string) : M (list User.t) :=
  read (A := User.t) filters None order_by.


Definition update_user (user : User.t) (update_fields : option (list string))
  : M User.t :=
  (if match update_fields with
      | None => true
      | Some fs => existsb (String.eqb "name") fs
      end
   then
     existing_user <- get_user_by_name (User.name user) ;;
     match existing_user with
     | Some existing_user =>
         if negb (option_uuid_eqb (User.id existing_user) (User.id user))
         then raise (ValueError (UserExists (User.name user)))
         else ret tt
     | None => ret tt
     end
   else ret tt) ;;;
  update user update_fields.

Definition delete_user (user_id : UUID) : M bool :=
  delete (A := User.t) user_id.

Definition get_all_tables (filters : list (string * pyval))
           (order_by : option string) : M (list Table.t) :=
  read (A := Table.t) filters None order_by.

(** [get_available_tables]: an empty [location] and a zero [capacity] are
    falsy and filter nothing. *)
Definition get_available_tables (capacity : option Z) (location : option string)
  : M (list Table.t) :=
  let filters :=
    ([("is_available", PBool true)]
     ++ match location with
        | Some l => if String.eqb l "" then [] else [("location", PStr l)]
        | None => []
        end)%list in
  tables <- get_all_tables filters (Some "number") ;;
  let tables :=
    match capacity with
    | Some c =>
        if c =? 0 then tables
        else filter (fun t => Table.capacity t >=? c) tables
    | None => tables
    end in
  ret tables.

Definition delete_table (table_id : UUID) : M bool :=
  delete (A := Table.t) table_id.

Definition get_bookings_by_user (user_id : UUID) : M (list Booking.t) :=
  get_all_bookings [("user_id", PUuid user_id)] (Some "booking_date").

Definition delete_booking (booking_id : UUID) : M bool :=
  delete (A := Booking.t) booking_id.

(* ------------------------------------------------------------------ *)
(** ** Lookups used to state the properties *)

(** The row [WHERE id = table_id LIMIT 1] selects. *)
Definition stored_table (d : DB) (table_id : UUID) : option Table.t :=
  find (fun t => option_uuid_eqb (Table.id t) (Some table_id)) (restaurant_table d).

Definition stored_booking (d : DB) (booking_id : UUID) : option Booking.t :=
  find (fun b => option_uuid_eqb (Booking.id b) (Some booking_id)) (booking d).

Definition stored_user (d : DB) (name : string) : option User.t :=
  find (fun u => String.eqb (User.name u) name) (user d).

(** The world after one more statement was sent. *)
Definition sent (s : Stmt) (w : World) : World := with_trace (trace w ++ [s]) w.

Definition select_table (table_id : UUID) : Stmt :=
  SELECT "restaurant_table" [("id", PUuid table_id)] None (Some 1).

Definition select_booking (booking_id : UUID) : Stmt :=
  SELECT "booking" [("id", PUuid booking_id)] None (Some 1).

Definition select_bookings_of (table_id : UUID) : Stmt :=
  SELECT "booking" [("table_id", PUuid table_id)] (Some "booking_date") None.

Definition select_user (name : string) : Stmt :=
  SELECT "user" [("name", PStr name)] None (Some 1).

Definition is_select (s : Stmt) : bool :=
  match s with SELECT _ _ _ _ => true | _ => false end.

(** The bookings [check_table_availability] loops over. *)
Definition active_bookings_of (d : DB) (table_id : UUID)
           (exclude_booking_id : option UUID) : list Booking.t :=
  filter (fun b => is_active b
                   && negb (option_uuid_eqb (Booking.id b) exclude_booking_id))
         (sort_by "booking_date"
            (filter (fun b => N.eqb (Booking.table_id b) table_id) (booking d))).

(** The second half of [update_booking]: stamp [updated_at], extend the
    field list, call the driver. *)
Definition persist_update (booking : Booking.t)
           (update_fields : option (list string)) : M Booking.t :=
  now <- datetime_now ;;
  let booking := Booking.set_updated_at now booking in
  let update_fields :=
    match update_fields with
    | None => None
    | Some fs =>
        if existsb (String.eqb "updated_at") fs then Some fs
        else Some (fs ++ ["updated_at"])%list
    end in
  update booking update_fields.

(** The second half of [create_booking]: build the [Booking] (its default
    factories run in field order) and insert it. *)
Definition insert_booking (user_id table_id : UUID) (booking_date : datetime)
           (guest_count duration_minutes : Z) (status special_requests : string)
  : M Booking.t :=
  id <- uuid4 ;;
  created_at <- datetime_now ;;
  updated_at <- datetime_now ;;
  create (Booking.mk user_id table_id booking_date guest_count (Some id)
                     duration_minutes status special_requests created_at updated_at).

(** The [Booking] that [create_booking] builds in world [w]. *)
Definition new_booking (w : World) (user_id table_id : UUID)
           (booking_date : datetime) (guest_count duration_minutes : Z)
           (status special_requests : string) : Booking.t :=
  Booking.mk user_id table_id booking_date guest_count
             (Some (uuid4_source w (tick w))) duration_minutes status
             special_requests (clock w (S (tick w))) (clock w (S (S (tick w)))).

(** The columns [update] writes for a [Booking] when [update_fields] is
    [None]: every field but [id] and [created_at]. *)
Definition default_update_fields : list string :=
  ["user_id"; "table_id"; "booking_date"; "guest_count"; "duration_minutes";
   "status"; "special_requests"; "updated_at"].

(** The field list [update_booking] hands to the driver. *)
Definition sent_fields (update_fields : option (list string)) : list string :=
  match update_fields with
  | None => default_update_fields
  | Some fs =>
      if existsb (String.eqb "updated_at") fs then fs
      else (fs ++ ["updated_at"])%list
  end.

(** A field list the UPDATE statement accepts: [None], or names of
    [Booking] columns without repetition. *)
Definition valid_update_fields (update_fields : option (list string)) : bool :=
  match update_fields with
  | None => true
  | Some fs =>
      forallb (is_column (A := Booking.t)) fs && negb (has_duplicate fs)
  end.

(** The UPDATE statement for entity [e] and SET list [fs]. *)
Definition update_stmt (e : Booking.t) (fs : list string) (booking_id : UUID)
  : Stmt :=
  UPDATE "booking" (combine fs (map (fun f => column f e) fs)) booking_id.

(** The bookings table after [UPDATE ... WHERE id = booking_id]. *)
Definition updated_bookings (e : Booking.t) (fs : list string)
           (booking_id : UUID) (l : list Booking.t) : list Booking.t :=
  map (fun r => if option_uuid_eqb (Booking.id r) (Some booking_id)
                then assign fs e r else r) l.

Definition with_bookings (l : list Booking.t) (d : DB) : DB :=
  mkDB (user d) (restaurant_table d) l.

(** Did the caller's booking move away from the stored one? *)
Definition changed (stored booking : Booking.t) : bool :=
  (negb (Booking.booking_date stored =? Booking.booking_date booking)
   || negb (Booking.duration_minutes stored =? Booking.duration_minutes booking))
  || negb (N.eqb (Booking.table_id stored) (Booking.table_id booking)).

(** A row after [SET status = s, updated_at = now]. *)
Definition restamp (s : string) (now : datetime) (r : Booking.t) : Booking.t :=
  Booking.set_updated_at now (Booking.set_status s r).

(** The bookings table after the status of booking [booking_id] was set. *)
Definition status_set (s : string) (now : datetime) (booking_id : UUID)
           (l : list Booking.t) : list Booking.t :=
  map (fun r => if option_uuid_eqb (Booking.id r) (Some booking_id)
                then restamp s now r else r) l.

(** The world once [confirm_booking] or [cancel_booking] has set the
    status of a stored booking: two lookups by id, one clock reading, one
    UPDATE. *)
Definition after_status_set (s : string) (booking_id : UUID) (B : Booking.t)
           (w : World) : World :=
  let now := clock w (tick w) in
  with_store
    (with_bookings (status_set s now booking_id (booking (store w))) (store w))
    (sent (update_stmt (restamp s now B) ["status"; "updated_at"] booking_id)
       (with_tick (S (tick w))
          (sent (select_booking booking_id)
             (sent (select_booking booking_id) w)))).

(** *** Small concrete worlds *)

Definition table_7 (is_available : bool) : Table.t :=
  Table.mk 1 2 "window" (Some 7%N) is_available.

(** Booking 50 of table 7: starts at minute 0 and lasts two hours. *)
Definition booking_50 (status : string) : Booking.t :=
  Booking.mk 1%N 7%N 0 2 (Some 50%N) 120 status "" 0 0.

Definition world_of (users : list User.t) (tables : list Table.t)
           (bookings : list Booking.t) : World :=
  mkWorld (mkDB users tables bookings) []
          (fun n => 100 + N.of_nat n)%N (fun n => Z.of_nat n) 0.

(** The world after [insert_booking] stored the booking it built: three
    fresh values were drawn and one INSERT was sent. *)
Definition after_insert_booking (nb : Booking.t) (w : World) : World :=
  with_store (with_bookings (booking (store w) ++ [nb]) (store w))
    (sent (INSERT "booking" (map (getattr nb) (field_names (A := Booking.t))))
       (with_tick (S (S (S (tick w)))) w)).

(** A run of the backend from the empty database: table number 1 is
    created (it gets id 100), a confirmed booking of two hours from minute
    0 is made on it with the check on (it gets id 101), and then the table
    is switched off. *)
Definition empty_world : World := world_of [] [] [].

Definition opened : World := snd (create_table 1 2 "window" true empty_world).

Definition booked : World :=
  snd (create_booking 1%N 100%N 0 2 120 "confirmed" "" true opened).

Definition switched_off : World :=
  snd (update_table (Table.mk 1 2 "window" (Some 100%N) false)
                    (Some ["is_available"]) booked).

(** The booking that run stored, and the same booking moved five minutes
    later, inside its own two hours. *)
Definition booking_101 (status : string) (updated_at : datetime) : Booking.t :=
  Booking.mk 1%N 100%N 0 2 (Some 101%N) 120 status "" 2 updated_at.

Definition booking_101_shifted : Booking.t :=
  Booking.mk 1%N 100%N (timedelta_minutes 5) 2 (Some 101%N) 120 "confirmed" "" 2 3.

(** Booking 50 moved five minutes later, inside its own two hours. *)
Definition booking_50_shifted : Booking.t :=
  Booking.mk 1%N 7%N (timedelta_minutes 5) 2 (Some 50%N) 120 "confirmed" "" 0 0.


(** The [User] that [create_user] builds in world [w]. *)
Definition new_user (w : World) (name phone email : string) : User.t :=
  User.mk name phone email (Some (uuid4_source w (tick w)))
          (clock w (S (tick w))).

Definition insert_user_stmt (u : User.t) : Stmt :=
  INSERT "user" (map (getattr u) (field_names (A := User.t))).


(** An UPDATE of the booking table for one id. *)
Definition is_update_of (booking_id : UUID) (s : Stmt) : Prop :=
  exists set_clauses, s = UPDATE "booking" set_clauses booking_id.

(** *** Runs of the backend *)

(** One call of the backend's writing interface. *)
Inductive Call :=
| CreateUser (name phone email : string)
| UpdateUser (u : User.t) (update_fields : option (list string))
| DeleteUser (user_id : UUID)
| CreateTable (number capacity : Z) (location : string) (is_available : bool)
| UpdateTable (t : Table.t) (update_fields : option (list string))
| DeleteTable (table_id : UUID)
| CreateBooking (user_id table_id : UUID) (booking_date : datetime)
                (guest_count duration_minutes : Z)
                (status special_requests : string) (check_availability : bool)
| UpdateBooking (b : Booking.t) (update_fields : option (list string))
                (check_availability : bool)
| DeleteBooking (booking_id : UUID)
| ConfirmBooking (booking_id : UUID)
| CancelBooking (booking_id : UUID).

(** The world after a call, whether it returned or raised. *)
Definition call (c : Call) (w : World) : World :=
  match c with
  | CreateUser n p e => snd (create_user n p e w)
  | UpdateUser u fs => snd (update_user u fs w)
  | DeleteUser i => snd (delete_user i w)
  | CreateTable n c l a => snd (create_table n c l a w)
  | UpdateTable t fs => snd (update_table t fs w)
  | DeleteTable i => snd (delete_table i w)
  | CreateBooking u t d g m s r chk => snd (create_booking u t d g m s r chk w)
  | UpdateBooking b fs chk => snd (update_booking b fs chk w)
  | DeleteBooking i => snd (delete_booking i w)
  | ConfirmBooking i => snd (confirm_booking i w)
  | CancelBooking i => snd (cancel_booking i w)
  end.

Definition run (calls : list Call) (w : World) : World :=
  fold_left (fun w c => call c w) calls w.

(** The run in which booking 101 is cancelled and the slot it freed is
    booked again, through the availability check, by user 2. *)
Definition rebooked : World :=
  Eval vm_compute in
    run [CancelBooking 101%N;
         CreateBooking 2%N 100%N (timedelta_minutes 30) 2 60 "pending" "" true]
        booked.

(** Calls that cannot put an active booking next to a stored one without
    the availability check: everything but an unchecked creation, an
    update of a booking and a confirmation. *)
Definition guarded (c : Call) : bool :=
  match c with
  | CreateBooking _ _ _ _ _ _ _ chk => chk
  | UpdateBooking _ _ _ => false
  | ConfirmBooking _ => false
  | _ => true
  end.

(** A primary key: no NULL, no repetition. *)
Definition unique_ids {A} (id_of : A -> option UUID) (l : list A) : Prop :=
  NoDup (map id_of l) /\ forall r, In r l -> id_of r <> None.

Definition integrity (d : DB) : Prop :=
  unique_ids User.id (user d)
  /\ unique_ids Table.id (restaurant_table d)
  /\ unique_ids Booking.id (booking d)
  /\ NoDup (map User.name (user d))
  /\ NoDup (map Table.number (restaurant_table d)).

(** Two bookings whose half-open intervals meet. *)
Definition overlap (a b : Booking.t) : Prop :=
  Booking.booking_date a < existing_end b
  /\ Booking.booking_date b < existing_end a.

Definition no_double_booking (d : DB) : Prop :=
  forall a b,
    In a (booking d) -> In b (booking d) ->
    Booking.id a <> Booking.id b ->
    Booking.table_id a = Booking.table_id b ->
    is_active a = true -> is_active b = true ->
    ~ overlap a b.

Definition by_date (a b : Booking.t) : Prop :=
  Booking.booking_date a <= Booking.booking_date b.

Definition by_number (a b : Table.t) : Prop := Table.number a <= Table.number b.

Definition select_bookings_of_user (user_id : UUID) : Stmt :=
  SELECT "booking" [("user_id", PUuid user_id)] (Some "booking_date") None.

(** The filter [get_available_tables] builds from its [location]. *)
Definition wanted_location (location : option string) (t : Table.t) : bool :=
  match location with
  | Some l => String.eqb l "" || String.eqb (Table.location t) l
  | None => true
  end.

(** The filter [get_available_tables] applies for its [capacity]. *)
Definition wanted_capacity (capacity : option Z) (t : Table.t) : bool :=
  match capacity with
  | Some c => (c =? 0) || (Table.capacity t >=? c)
  | None => true
  end.

(** The SET list [update] ends up with. *)
Definition resolved_fields {A} `{Entity A} (update_fields : option (list string))
  : list string :=
  match update_fields with
  | None =>
      filter (fun f => negb (String.eqb f "id" || String.eqb f "created_at"))
             field_names
  | Some fs => fs
  end.

(* ------------------------------------------------------------------ *)
(** ** Lists *)

Lemma hd_error_firstn_filter {A} (p : A -> bool) (l : list A) :
  hd_error (firstn 1 (filter p l)) = find p l.
Proof.
  induction l as [|x l IH]; simpl; [reflexivity|].
  destruct (p x); simpl; [reflexivity | exact IH].
Qed.

Lemma filter_ext_eq {A} (p q : A -> bool) (l : list A) :
  (forall x, p x = q x) -> filter p l = filter q l.
Proof.
  intros E. induction l as [|x l IH]; simpl; [reflexivity|].
  now rewrite E, IH.
Qed.

Lemma find_ext_eq {A} (p q : A -> bool) (l : list A) :
  (forall x, p x = q x) -> find p l = find q l.
Proof.
  intros E. induction l as [|x l IH]; simpl; [reflexivity|].
  now rewrite E, IH.
Qed.

Lemma existsb_ext_eq {A} (p q : A -> bool) (l : list A) :
  (forall x, p x = q x) -> existsb p l = existsb q l.
Proof.
  intros E. induction l as [|x l IH]; simpl; [reflexivity|].
  now rewrite E, IH.
Qed.

Lemma find_none_iff {A} (p : A -> bool) (l : list A) :
  find p l = None <-> forall x, In x l -> p x = false.
Proof.
  split.
  - intros Hn x Hx. exact (find_none p l Hn x Hx).
  - induction l as [|y l IH]; simpl; intros Hall; [reflexivity|].
    rewrite (Hall y (or_introl eq_refl)). apply IH. intros x Hx.
    apply Hall. now right.
Qed.

Lemma find_existsb {A} (p : A -> bool) (l : list A) :
  existsb p l = match find p l with Some _ => true | None => false end.
Proof.
  induction l as [|x l IH]; simpl; [reflexivity|].
  destruct (p x); simpl; [reflexivity | exact IH].
Qed.

(** Rewriting the matching rows in place keeps the first match first. *)
Lemma find_map_matching {A} (p : A -> bool) (g : A -> A) (l : list A) :
  (forall r, p r = true -> p (g r) = true) ->
  find p (map (fun r => if p r then g r else r) l) = option_map g (find p l).
Proof.
  intros Hg. induction l as [|x l IH]; simpl; [reflexivity|].
  destruct (p x) eqn:E.
  - now rewrite (Hg x E).
  - now rewrite E.
Qed.

Lemma option_uuid_eqb_eq (a b : option UUID) :
  option_uuid_eqb a b = true <-> a = b.
Proof.
  destruct a as [x|], b as [y|]; simpl; try (split; congruence).
  rewrite N.eqb_eq. split; congruence.
Qed.

Lemma option_uuid_eqb_neq (a b : option UUID) :
  option_uuid_eqb a b = false <-> a <> b.
Proof.
  rewrite <- option_uuid_eqb_eq. destruct (option_uuid_eqb a b); split; congruence.
Qed.


(* ------------------------------------------------------------------ *)
(** ** The driver on the three tables *)

Section SortFacts.
Context {A : Type} `{Entity A}.

Lemma in_insert_by (c : string) (x y : A) (l : list A) :
  In y (insert_by c x l) <-> y = x \/ In y l.
Proof.
  induction l as [|z l IH]; simpl.
  - intuition congruence.
  - destruct (sql_leb (column c x) (column c z)); simpl.
    + intuition congruence.
    + rewrite IH. intuition congruence.
Qed.

Lemma in_sort_by (c : string) (y : A) (l : list A) :
  In y (sort_by c l) <-> In y l.
Proof.
  induction l as [|x l IH]; simpl; [reflexivity|].
  rewrite in_insert_by, IH. intuition congruence.
Qed.

(** A lookup with [limit=1] and no ordering. *)
Lemma read_first (filters : list (string * pyval)) (w : World) :
  forallb is_column (map fst filters) = true ->
  read filters (Some 1) None w
  = (Ok (firstn 1 (filter (row_matches filters) (rows (store w)))),
     sent (SELECT table_name filters None (Some 1)) w).
Proof.
  intros Hc. unfold read, bind, execute. rewrite Hc. reflexivity.
Qed.

(** A listing ordered by a column. *)
Lemma read_ordered (filters : list (string * pyval)) (c : string) (w : World) :
  forallb is_column (map fst filters) = true ->
  String.eqb c "" = false ->
  is_column c = true ->
  read filters None (Some c) w
  = (Ok (sort_by c (filter (row_matches filters) (rows (store w)))),
     sent (SELECT table_name filters (Some c) None) w).
Proof.
  intros Hc Hne Hcol. unfold read, bind, execute. rewrite Hc, Hne, Hcol.
  reflexivity.
Qed.
End SortFacts.

Lemma Table_has_id (u : UUID) (t : Table.t) :
  has_id u t = option_uuid_eqb (Table.id t) (Some u).
Proof.
  unfold has_id, row_matches, column. cbn.
  destruct (Table.id t); cbn; now rewrite ?andb_true_r.
Qed.

Lemma Booking_has_id (u : UUID) (b : Booking.t) :
  has_id u b = option_uuid_eqb (Booking.id b) (Some u).
Proof.
  unfold has_id, row_matches, column. cbn.
  destruct (Booking.id b); cbn; now rewrite ?andb_true_r.
Qed.

Lemma User_has_id (u : UUID) (x : User.t) :
  has_id u x = option_uuid_eqb (User.id x) (Some u).
Proof.
  unfold has_id, row_matches, column. cbn.
  destruct (User.id x); cbn; now rewrite ?andb_true_r.
Qed.

Lemma get_table_by_id_run (table_id : UUID) (w : World) :
  get_table_by_id table_id w
  = (Ok (stored_table (store w) table_id), sent (select_table table_id) w).
Proof.
  unfold get_table_by_id, read_by_id, bind. rewrite read_first by reflexivity.
  unfold ret. rewrite hd_error_firstn_filter. unfold stored_table.
  f_equal. f_equal. apply find_ext_eq. intros t. apply Table_has_id.
Qed.

Lemma get_booking_by_id_run (booking_id : UUID) (w : World) :
  get_booking_by_id booking_id w
  = (Ok (stored_booking (store w) booking_id), sent (select_booking booking_id) w).
Proof.
  unfold get_booking_by_id, read_by_id, bind. rewrite read_first by reflexivity.
  unfold ret. rewrite hd_error_firstn_filter. unfold stored_booking.
  f_equal. f_equal. apply find_ext_eq. intros t. apply Booking_has_id.
Qed.

Lemma get_user_by_name_run (name : string) (w : World) :
  get_user_by_name name w
  = (Ok (stored_user (store w) name), sent (select_user name) w).
Proof.
  unfold get_user_by_name, bind. rewrite read_first by reflexivity.
  unfold ret. rewrite hd_error_firstn_filter. unfold stored_user.
  f_equal. f_equal. apply find_ext_eq. intros u.
  unfold row_matches, column. cbn. now rewrite andb_true_r.
Qed.

Lemma get_bookings_by_table_run (table_id : UUID) (w : World) :
  get_bookings_by_table table_id w
  = (Ok (sort_by "booking_date"
           (filter (fun b => N.eqb (Booking.table_id b) table_id)
                   (booking (store w)))),
     sent (select_bookings_of table_id) w).
Proof.
  unfold get_bookings_by_table, get_all_bookings.
  rewrite read_ordered by reflexivity. f_equal. f_equal. f_equal.
  apply filter_ext_eq. intros b. unfold row_matches, column. cbn.
  now rewrite andb_true_r.
Qed.

(* ------------------------------------------------------------------ *)
(** ** check_table_availability, step by step *)

Lemma first_conflict_fst (S E : datetime) (l : list Booking.t) :
  fst (first_conflict S E l) = negb (existsb (intersects S E) l).
Proof.
  induction l as [|b l IH]; simpl; [reflexivity|].
  destruct (intersects S E b); simpl; [reflexivity | exact IH].
Qed.

Lemma first_conflict_shape (S E : datetime) (l : list Booking.t) :
  first_conflict S E l = (true, None) \/
  exists b, In b l /\ intersects S E b = true
            /\ first_conflict S E l = (false, Some (AlreadyBooked b)).
Proof.
  induction l as [|b l IH]; simpl; [now left|].
  destruct (intersects S E b) eqn:Hb.
  - right. exists b. auto.
  - destruct IH as [IH | [b' [Hin [Hi Hf]]]]; [now left|].
    right. exists b'. auto.
Qed.


Lemma intersects_iff (S E : datetime) (b : Booking.t) :
  intersects S E b = true <-> S < existing_end b /\ Booking.booking_date b < E.
Proof.
  unfold intersects. rewrite andb_true_iff, !Z.ltb_lt. reflexivity.
Qed.

Lemma in_active_bookings_of (d : DB) (table_id : UUID) (ex : option UUID)
      (b : Booking.t) :
  In b (active_bookings_of d table_id ex) <->
  In b (booking d) /\ Booking.table_id b = table_id
  /\ is_active b = true /\ Booking.id b <> ex.
Proof.
  unfold active_bookings_of.
  rewrite filter_In, in_sort_by, filter_In, andb_true_iff, negb_true_iff,
    N.eqb_eq, option_uuid_eqb_neq.
  tauto.
Qed.

(** What the call computes and what it sends, as one equation. *)
Lemma check_table_availability_run (table_id : UUID) (S D : Z)
      (ex : option UUID) (w : World) :
  check_table_availability table_id S D ex w =
  match stored_table (store w) table_id with
  | None => (Ok (false, Some TableNotFound), sent (select_table table_id) w)
  | Some table =>
      if Table.is_available table then
        (Ok (first_conflict S (S + timedelta_minutes D)
               (active_bookings_of (store w) table_id ex)),
         sent (select_bookings_of table_id) (sent (select_table table_id) w))
      else
        (Ok (false, Some TableUnavailable), sent (select_table table_id) w)
  end.
Proof.
  unfold check_table_availability, bind. rewrite get_table_by_id_run.
  destruct (stored_table (store w) table_id) as [t|]; [|reflexivity].
  destruct (Table.is_available t); [|reflexivity].
  change (negb true) with false. cbv beta iota. rewrite get_bookings_by_table_run. reflexivity.
Qed.

Lemma check_table_availability_store (table_id : UUID) (S D : Z)
      (ex : option UUID) (w : World) :
  store (snd (check_table_availability table_id S D ex w)) = store w
  /\ tick (snd (check_table_availability table_id S D ex w)) = tick w.
Proof.
  rewrite check_table_availability_run.
  destruct (stored_table (store w) table_id) as [t|]; [|split; reflexivity].
  destruct (Table.is_available t); split; reflexivity.
Qed.

(** The check on a table that exists and is switched on. *)
Lemma check_available_table (table_id : UUID) (S D : Z) (ex : option UUID)
      (w : World) (table : Table.t) :
  stored_table (store w) table_id = Some table ->
  Table.is_available table = true ->
  check_table_availability table_id S D ex w
  = (Ok (first_conflict S (S + timedelta_minutes D)
           (active_bookings_of (store w) table_id ex)),
     sent (select_bookings_of table_id) (sent (select_table table_id) w)).
Proof.
  intros Ht Ha. rewrite check_table_availability_run, Ht, Ha. reflexivity.
Qed.

(* ------------------------------------------------------------------ *)
(** ** C1, C3, C8: the availability check *)


(** C3.  For a [table_id] that matches no stored table, and for a stored
    table whose [is_available] flag is false, the check answers
    [available = false] with a reason, and the only statement it sends is
    the lookup of the table: no booking is read, and no booking influences
    the answer. *)
Theorem check_table_availability_fails_closed
        (w : World) (table_id : UUID) (S D : Z) (exclude_booking_id : option UUID) :
  stored_table (store w) table_id = None
  \/ (exists table, stored_table (store w) table_id = Some table
                    /\ Table.is_available table = false) ->
  exists reason w',
    check_table_availability table_id S D exclude_booking_id w
    = (Ok (false, Some reason), w')
    /\ trace w' = (trace w ++ [select_table table_id])%list
    /\ store w' = store w
    /\ forall bookings,
        fst (check_table_availability table_id S D exclude_booking_id
               (with_store (mkDB (user (store w)) (restaurant_table (store w))
                                 bookings) w))
        = Ok (false, Some reason).
Proof.
  intros [Hn | [t [Ht Ha]]].
  - exists TableNotFound, (sent (select_table table_id) w).
    rewrite check_table_availability_run, Hn.
    repeat split. intros bs. rewrite check_table_availability_run.
    unfold stored_table in *. simpl. now rewrite Hn.
  - exists TableUnavailable, (sent (select_table table_id) w).
    rewrite check_table_availability_run, Ht, Ha.
    repeat split. intros bs. rewrite check_table_availability_run.
    unfold stored_table in *. simpl. now rewrite Ht, Ha.
Qed.

(** C8.  The check is read-only: whatever its arguments and its answer,
    the stored users, tables and bookings are the same after the call, and
    every statement it sent is a SELECT. *)
Theorem check_table_availability_read_only
        (w : World) (table_id : UUID) (booking_date : datetime)
        (duration_minutes : Z) (exclude_booking_id : option UUID) :
  let w' := snd (check_table_availability table_id booking_date
                   duration_minutes exclude_booking_id w) in
  store w' = store w
  /\ exists sent_now, trace w' = (trace w ++ sent_now)%list
                      /\ forallb is_select sent_now = true.
Proof.
  cbv zeta. rewrite check_table_availability_run.
  destruct (stored_table (store w) table_id) as [t|].
  - destruct (Table.is_available t); simpl.
    + split; [reflexivity|].
      exists [select_table table_id; select_bookings_of table_id].
      rewrite <- app_assoc. split; reflexivity.
    + split; [reflexivity|]. exists [select_table table_id]. split; reflexivity.
  - simpl. split; [reflexivity|]. exists [select_table table_id].
    split; reflexivity.
Qed.

(* ------------------------------------------------------------------ *)
(** ** UPDATE on the booking table *)

Lemma Booking_getattr_column (e : Booking.t) (f : string) :
  is_column (A := Booking.t) f = true -> getattr e f = Some (column f e).
Proof.
  unfold column. destruct (getattr e f) eqn:G; [reflexivity|].
  unfold is_column, field_names. cbn in *. unfold Booking_getattr in G.
  repeat match type of G with
         | (if String.eqb f ?s then _ else _) = None =>
             destruct (String.eqb f s); [discriminate|]
         end.
  cbn. discriminate.
Qed.

Lemma Booking_collect_values (e : Booking.t) (fs : list string) :
  forallb (is_column (A := Booking.t)) fs = true ->
  collect_values e fs = Some (map (fun f => column f e) fs).
Proof.
  induction fs as [|f fs IH]; [reflexivity|].
  cbn [forallb collect_values map]. rewrite andb_true_iff. intros [Hf Hfs].
  rewrite (Booking_getattr_column e f Hf), (IH Hfs). reflexivity.
Qed.

Lemma Booking_id_assign (fs : list string) (e r : Booking.t) (o : option UUID) :
  Booking.id e = o -> Booking.id r = o -> Booking.id (assign fs e r) = o.
Proof.
  intros He. revert r. unfold assign.
  induction fs as [|f fs IH]; simpl; intros r Hr; [exact Hr|].
  apply IH. cbn. destruct (String.eqb f "id"); assumption.
Qed.

Lemma updated_bookings_untouched (e : Booking.t) (fs : list string)
      (booking_id : UUID) (l : list Booking.t) :
  (forall b, In b l -> Booking.id b <> Some booking_id) ->
  updated_bookings e fs booking_id l = l.
Proof.
  intros Hall. unfold updated_bookings.
  induction l as [|b l IH]; simpl; [reflexivity|].
  destruct (option_uuid_eqb (Booking.id b) (Some booking_id)) eqn:E.
  - apply option_uuid_eqb_eq in E. exfalso. apply (Hall b); [now left | exact E].
  - f_equal. apply IH. intros x Hx. apply Hall. now right.
Qed.

Lemma with_bookings_same (d : DB) : with_bookings (booking d) d = d.
Proof. destruct d. reflexivity. Qed.

Lemma stored_booking_None (d : DB) (booking_id : UUID) :
  stored_booking d booking_id = None <->
  forall b, In b (booking d) -> Booking.id b <> Some booking_id.
Proof.
  unfold stored_booking. rewrite find_none_iff.
  split; intros Hall b Hb; specialize (Hall b Hb);
    now apply option_uuid_eqb_neq.
Qed.

Lemma stored_booking_Some (d : DB) (booking_id : UUID) (b : Booking.t) :
  stored_booking d booking_id = Some b ->
  In b (booking d) /\ Booking.id b = Some booking_id.
Proof.
  unfold stored_booking. intros Hf. apply find_some in Hf.
  destruct Hf as [Hin Hid]. now apply option_uuid_eqb_eq in Hid.
Qed.

Lemma stored_booking_updated (e : Booking.t) (fs : list string)
      (booking_id : UUID) (d : DB) :
  Booking.id e = Some booking_id ->
  stored_booking (with_bookings (updated_bookings e fs booking_id (booking d)) d)
                 booking_id
  = option_map (assign fs e) (stored_booking d booking_id).
Proof.
  intros He. unfold stored_booking, updated_bookings. simpl.
  apply (find_map_matching
           (fun b => option_uuid_eqb (Booking.id b) (Some booking_id))
           (assign fs e)).
  intros r Hr. apply option_uuid_eqb_eq in Hr. apply option_uuid_eqb_eq.
  now apply Booking_id_assign.
Qed.

(** The driver's UPDATE of a booking, for a SET list it accepts. *)
Lemma Booking_update_run (e : Booking.t) (fs : list string) (booking_id : UUID)
      (w : World) :
  Booking.id e = Some booking_id ->
  forallb (is_column (A := Booking.t)) fs = true ->
  fs <> [] ->
  has_duplicate fs = false ->
  update e (Some fs) w
  = (match stored_booking (store w) booking_id with
     | Some B => Ok (assign fs e B)
     | None => Raise (Exception OpUpdate NoRowReturned)
     end,
     with_store
       (with_bookings (updated_bookings e fs booking_id (booking (store w)))
                      (store w))
       (sent (update_stmt e fs booking_id) w)).
Proof.
  intros Hid Hcols Hne Hdup. unfold update.
  change (getattr e "id") with (Some (uuid_val (Booking.id e))).
  rewrite Hid. cbn [uuid_val]. rewrite (Booking_collect_values e fs Hcols).
  unfold bind, execute. rewrite Hdup.
  destruct fs as [|f fs']; [congruence|]. cbn [orb].
  unfold get_store, put_store, ret. cbn [store with_trace].
  assert (Hmap : map (fun r : Booking.t =>
                        if has_id booking_id r then assign (f :: fs') e r else r)
                     (rows (store w))
                 = updated_bookings e (f :: fs') booking_id (booking (store w))).
  { unfold updated_bookings. apply map_ext. intros r.
    now rewrite Booking_has_id. }
  rewrite Hmap.
  rewrite (find_ext_eq (has_id booking_id)
             (fun b => option_uuid_eqb (Booking.id b) (Some booking_id)))
    by apply Booking_has_id.
  pose proof (stored_booking_updated e (f :: fs') booking_id (store w) Hid) as Hs.
  unfold stored_booking in Hs at 1. simpl in Hs. rewrite Hs.
  destruct (stored_booking (store w) booking_id); reflexivity.
Qed.

Lemma has_duplicate_snoc (fs : list string) (x : string) :
  has_duplicate fs = false ->
  existsb (String.eqb x) fs = false ->
  has_duplicate (fs ++ [x]) = false.
Proof.
  induction fs as [|y fs IH]; simpl; [reflexivity|].
  rewrite !orb_false_iff. intros [Hy Hd] [Hxy Hx].
  split; [|now apply IH].
  rewrite existsb_app, Hy. simpl. rewrite String.eqb_sym, Hxy. reflexivity.
Qed.

Lemma sent_fields_accepted (update_fields : option (list string)) :
  valid_update_fields update_fields = true ->
  forallb (is_column (A := Booking.t)) (sent_fields update_fields) = true
  /\ sent_fields update_fields <> []
  /\ has_duplicate (sent_fields update_fields) = false.
Proof.
  destruct update_fields as [fs|]; cbn [valid_update_fields sent_fields].
  - rewrite andb_true_iff, negb_true_iff. intros [Hc Hd].
    destruct (existsb (String.eqb "updated_at") fs) eqn:Hu.
    + split; [assumption|]. split; [|assumption]. intros ->. discriminate.
    + split; [|split].
      * rewrite forallb_app, Hc. reflexivity.
      * intros Hnil. apply app_eq_nil in Hnil. destruct Hnil. discriminate.
      * now apply has_duplicate_snoc.
  - intros _. split; [reflexivity|]. split; [discriminate | reflexivity].
Qed.

Lemma persist_update_eq (bk : Booking.t)
      (update_fields : option (list string)) (w : World) :
  persist_update bk update_fields w
  = update (Booking.set_updated_at (clock w (tick w)) bk)
           (Some (sent_fields update_fields)) (with_tick (S (tick w)) w).
Proof.
  unfold persist_update, bind, datetime_now.
  destruct update_fields as [fs|]; cbn [sent_fields].
  - destruct (existsb (String.eqb "updated_at") fs); reflexivity.
  - reflexivity.
Qed.

(** The persisting half of [update_booking], for a field list the
    statement accepts. *)
Lemma persist_update_run (bk : Booking.t)
      (update_fields : option (list string)) (booking_id : UUID) (w : World) :
  Booking.id bk = Some booking_id ->
  valid_update_fields update_fields = true ->
  let e := Booking.set_updated_at (clock w (tick w)) bk in
  let fs := sent_fields update_fields in
  persist_update bk update_fields w
  = (match stored_booking (store w) booking_id with
     | Some B => Ok (assign fs e B)
     | None => Raise (Exception OpUpdate NoRowReturned)
     end,
     with_store
       (with_bookings (updated_bookings e fs booking_id (booking (store w)))
                      (store w))
       (sent (update_stmt e fs booking_id) (with_tick (S (tick w)) w))).
Proof.
  intros Hid Hv e fs. rewrite persist_update_eq.
  destruct (sent_fields_accepted update_fields Hv) as [Hc [Hne Hd]].
  rewrite (Booking_update_run e fs booking_id); try assumption.
  reflexivity.
Qed.

Lemma update_booking_no_id (bk : Booking.t)
      (update_fields : option (list string)) (w : World) :
  Booking.id bk = None ->
  update_booking bk update_fields true w
  = persist_update bk update_fields w.
Proof. intros Hid. unfold update_booking. rewrite Hid. reflexivity. Qed.

Lemma update_booking_not_stored (bk : Booking.t)
      (update_fields : option (list string)) (booking_id : UUID) (w : World) :
  Booking.id bk = Some booking_id ->
  stored_booking (store w) booking_id = None ->
  update_booking bk update_fields true w
  = persist_update bk update_fields (sent (select_booking booking_id) w).
Proof.
  intros Hid Hs. unfold update_booking. rewrite Hid.
  unfold bind at 1. unfold bind at 1. rewrite get_booking_by_id_run, Hs.
  reflexivity.
Qed.

Lemma update_booking_unchanged (bk B : Booking.t)
      (update_fields : option (list string)) (booking_id : UUID) (w : World) :
  Booking.id bk = Some booking_id ->
  stored_booking (store w) booking_id = Some B ->
  changed B bk = false ->
  update_booking bk update_fields true w
  = persist_update bk update_fields (sent (select_booking booking_id) w).
Proof.
  intros Hid Hs Hc. unfold update_booking. rewrite Hid.
  unfold bind at 1. unfold bind at 1. rewrite get_booking_by_id_run, Hs.
  unfold changed in Hc. rewrite Hc. reflexivity.
Qed.

Lemma update_booking_changed (bk B : Booking.t)
      (update_fields : option (list string)) (booking_id : UUID) (w : World) :
  Booking.id bk = Some booking_id ->
  stored_booking (store w) booking_id = Some B ->
  changed B bk = true ->
  update_booking bk update_fields true w
  = match check_table_availability (Booking.table_id bk)
            (Booking.booking_date bk) (Booking.duration_minutes bk)
            (Some booking_id) (sent (select_booking booking_id) w) with
    | (Ok (true, _), w1) => persist_update bk update_fields w1
    | (Ok (false, reason), w1) =>
        (Raise (ValueError (CannotUpdateBooking reason)), w1)
    | (Raise e, w1) => (Raise e, w1)
    end.
Proof.
  intros Hid Hs Hc. unfold update_booking. rewrite Hid.
  unfold bind at 1. unfold bind at 1. rewrite get_booking_by_id_run, Hs.
  unfold changed in Hc. rewrite Hc. unfold bind at 1.
  destruct (check_table_availability _ _ _ _ _) as [[[[|] reason]|e] w1];
    reflexivity.
Qed.

(* ------------------------------------------------------------------ *)
(** ** C2: the status of a booking under confirm and cancel *)

Lemma assign_status (e r : Booking.t) :
  assign ["status"; "updated_at"] e r
  = restamp (Booking.status e) (Booking.updated_at e) r.
Proof. destruct r. reflexivity. Qed.

Lemma updated_bookings_status (s : string) (now : datetime) (B : Booking.t)
      (booking_id : UUID) (l : list Booking.t) :
  updated_bookings (restamp s now B) ["status"; "updated_at"] booking_id l
  = status_set s now booking_id l.
Proof.
  unfold updated_bookings, status_set. apply map_ext. intros r.
  now rewrite assign_status.
Qed.

(** Both transitions run the same code up to the status written. *)
Lemma status_update_run (s : string) (booking_id : UUID) (B : Booking.t)
      (w : World) :
  stored_booking (store w) booking_id = Some B ->
  (bk <- get_booking_by_id booking_id ;;
   match bk with
   | Some bk =>
       b <- update_booking (Booking.set_status s bk) (Some ["status"]) true ;;
       ret (Some b)
   | None => ret None
   end) w
  = (Ok (Some (restamp s (clock w (tick w)) B)),
     after_status_set s booking_id B w).
Proof.
  intros Hs. destruct (stored_booking_Some _ _ _ Hs) as [_ Hid].
  unfold bind at 1. rewrite get_booking_by_id_run, Hs.
  unfold bind at 1.
  rewrite (update_booking_unchanged _ B _ booking_id);
    [ | exact Hid | exact Hs
      | unfold changed; cbn; now rewrite !Z.eqb_refl, N.eqb_refl ].
  rewrite (persist_update_run _ _ booking_id) by (exact Hid || reflexivity).
  cbv zeta. cbn [store sent with_trace with_tick tick clock].
  rewrite Hs. unfold ret, after_status_set.
  change (sent_fields (Some ["status"])) with ["status"; "updated_at"].
  change (Booking.set_updated_at (clock w (tick w)) (Booking.set_status s B))
    with (restamp s (clock w (tick w)) B).
  rewrite updated_bookings_status, assign_status. reflexivity.
Qed.

Lemma confirm_booking_run (booking_id : UUID) (B : Booking.t) (w : World) :
  stored_booking (store w) booking_id = Some B ->
  confirm_booking booking_id w
  = (Ok (Some (restamp "confirmed" (clock w (tick w)) B)),
     after_status_set "confirmed" booking_id B w).
Proof. apply status_update_run. Qed.

Lemma cancel_booking_run (booking_id : UUID) (B : Booking.t) (w : World) :
  stored_booking (store w) booking_id = Some B ->
  cancel_booking booking_id w
  = (Ok (Some (restamp "cancelled" (clock w (tick w)) B)),
     after_status_set "cancelled" booking_id B w).
Proof. apply status_update_run. Qed.

Lemma in_status_set (s : string) (now : datetime) (booking_id : UUID)
      (l : list Booking.t) (y : Booking.t) :
  In y (status_set s now booking_id l) <->
  exists x, In x l
            /\ ((Booking.id x = Some booking_id /\ y = restamp s now x)
                \/ (Booking.id x <> Some booking_id /\ y = x)).
Proof.
  unfold status_set. rewrite in_map_iff. split.
  - intros [x [Hy Hx]]. exists x. split; [exact Hx|].
    destruct (option_uuid_eqb (Booking.id x) (Some booking_id)) eqn:E.
    + left. apply option_uuid_eqb_eq in E. auto.
    + right. apply option_uuid_eqb_neq in E. auto.
  - intros [x [Hx [[Hid ->] | [Hid ->]]]]; exists x; split; try exact Hx.
    + apply option_uuid_eqb_eq in Hid. now rewrite Hid.
    + apply option_uuid_eqb_neq in Hid. now rewrite Hid.
Qed.

Lemma stored_booking_after_status_set (s : string) (booking_id : UUID)
      (B : Booking.t) (w : World) :
  stored_booking (store w) booking_id = Some B ->
  stored_booking (store (after_status_set s booking_id B w)) booking_id
  = Some (restamp s (clock w (tick w)) B).
Proof.
  intros Hs. unfold after_status_set. cbn [store with_store].
  rewrite <- (updated_bookings_status s (clock w (tick w)) B).
  rewrite stored_booking_updated, Hs.
  - cbn [option_map]. now rewrite assign_status.
  - cbn. now destruct (stored_booking_Some _ _ _ Hs).
Qed.

Lemma status_after_status_set (s : string) (booking_id : UUID)
      (B : Booking.t) (w : World) (x : Booking.t) :
  In x (booking (store (after_status_set s booking_id B w))) ->
  Booking.id x = Some booking_id -> Booking.status x = s.
Proof.
  unfold after_status_set. cbn [store with_store with_bookings booking].
  rewrite in_status_set. intros [y [_ [[_ ->] | [Hne ->]]]] Hid.
  - reflexivity.
  - contradiction.
Qed.

(** C2, as the code has it.  On a stored booking, [confirm_booking] writes
    status confirmed and [cancel_booking] writes status cancelled, whatever
    the stored status was: pending and confirmed go to confirmed under
    confirm and to cancelled under cancel, a cancelled booking stays
    cancelled under cancel, and confirm moves a cancelled booking to
    confirmed. *)
Theorem status_transitions (w : World) (booking_id : UUID) (B : Booking.t) :
  stored_booking (store w) booking_id = Some B ->
  (exists b' w',
      confirm_booking booking_id w = (Ok (Some b'), w')
      /\ Booking.status b' = "confirmed"
      /\ stored_booking (store w') booking_id = Some b'
      /\ forall x, In x (booking (store w')) ->
                   Booking.id x = Some booking_id ->
                   Booking.status x = "confirmed")
  /\ (exists b' w',
         cancel_booking booking_id w = (Ok (Some b'), w')
         /\ Booking.status b' = "cancelled"
         /\ stored_booking (store w') booking_id = Some b'
         /\ forall x, In x (booking (store w')) ->
                      Booking.id x = Some booking_id ->
                      Booking.status x = "cancelled").
Proof.
  intros Hs. split.
  - exists (restamp "confirmed" (clock w (tick w)) B),
      (after_status_set "confirmed" booking_id B w).
    split; [now apply confirm_booking_run|]. split; [reflexivity|].
    split; [now apply stored_booking_after_status_set|].
    apply status_after_status_set.
  - exists (restamp "cancelled" (clock w (tick w)) B),
      (after_status_set "cancelled" booking_id B w).
    split; [now apply cancel_booking_run|]. split; [reflexivity|].
    split; [now apply stored_booking_after_status_set|].
    apply status_after_status_set.
Qed.

(** C2 fails as stated: in the run where the stored booking 101 is
    cancelled and then confirmed, both calls succeed and the booking that
    was cancelled ends up confirmed. *)
Lemma confirm_revives_cancelled :
  fst (cancel_booking 101%N booked) = Ok (Some (booking_101 "cancelled" 4))
  /\ stored_booking (store (snd (cancel_booking 101%N booked))) 101%N
     = Some (booking_101 "cancelled" 4)
  /\ fst (confirm_booking 101%N (snd (cancel_booking 101%N booked)))
     = Ok (Some (booking_101 "confirmed" 5))
  /\ stored_booking
       (store (snd (confirm_booking 101%N (snd (cancel_booking 101%N booked)))))
       101%N
     = Some (booking_101 "confirmed" 5).
Proof. repeat split; reflexivity. Qed.

Lemma status_transitions_witness :
  stored_booking (store (world_of [] [table_7 true] [booking_50 "cancelled"]))
                 50%N
  = Some (booking_50 "cancelled")
  /\ exists b' w',
      confirm_booking 50%N (world_of [] [table_7 true] [booking_50 "cancelled"])
      = (Ok (Some b'), w')
      /\ Booking.status b' = "confirmed".
Proof.
  split; [reflexivity|].
  destruct (status_transitions
              (world_of [] [table_7 true] [booking_50 "cancelled"]) 50%N
              (booking_50 "cancelled") eq_refl)
    as [[b' [w' [H1 [H2 _]]]] _].
  exists b', w'. split; assumption.
Defined.

(* ------------------------------------------------------------------ *)
(** ** create_booking, step by step *)

Lemma Booking_id_stored (u : UUID) (d : DB) :
  existsb (has_id u) (booking d)
  = match stored_booking d u with Some _ => true | None => false end.
Proof.
  rewrite find_existsb. unfold stored_booking.
  now rewrite (find_ext_eq (has_id u)
                 (fun b => option_uuid_eqb (Booking.id b) (Some u)))
    by apply Booking_has_id.
Qed.

Lemma insert_booking_run (user_id table_id : UUID) (booking_date : datetime)
      (guest_count duration_minutes : Z) (status special_requests : string)
      (w : World) :
  let nb := new_booking w user_id table_id booking_date guest_count
                        duration_minutes status special_requests in
  insert_booking user_id table_id booking_date guest_count duration_minutes
                 status special_requests w
  = match stored_booking (store w) (uuid4_source w (tick w)) with
    | None => (Ok nb, after_insert_booking nb w)
    | Some _ =>
        (Raise (Exception OpCreate UniqueViolation),
         sent (INSERT "booking" (map (getattr nb) (field_names (A := Booking.t))))
              (with_tick (S (S (S (tick w)))) w))
    end.
Proof.
  cbv zeta. unfold insert_booking, bind, uuid4, datetime_now, create, bind,
    execute, get_store, put_store, ret, after_insert_booking, sent,
    with_store, with_trace, with_tick.
  cbn [tick clock uuid4_source store trace].
  change (getattr (A := Booking.t) ?b "id") with (Some (uuid_val (Booking.id b))).
  cbn [Booking.id uuid_val new_booking].
  change (rows (A := Booking.t) ?d) with (booking d).
  rewrite Booking_id_stored. cbn [store].
  destruct (stored_booking (store w) (uuid4_source w (tick w))); reflexivity.
Qed.

Lemma in_after_insert_booking (nb : Booking.t) (w : World) :
  In nb (booking (store (after_insert_booking nb w))).
Proof.
  unfold after_insert_booking. cbn [store with_store with_bookings booking].
  apply in_or_app. right. now left.
Qed.

Lemma create_booking_unchecked (user_id table_id : UUID) (booking_date : datetime)
      (guest_count duration_minutes : Z) (status special_requests : string)
      (w : World) :
  create_booking user_id table_id booking_date guest_count duration_minutes
                 status special_requests false w
  = insert_booking user_id table_id booking_date guest_count duration_minutes
                   status special_requests w.
Proof. reflexivity. Qed.

Lemma create_booking_checked (user_id table_id : UUID) (booking_date : datetime)
      (guest_count duration_minutes : Z) (status special_requests : string)
      (w : World) :
  create_booking user_id table_id booking_date guest_count duration_minutes
                 status special_requests true w
  = match check_table_availability table_id booking_date duration_minutes
            None w with
    | (Ok (true, _), w1) =>
        insert_booking user_id table_id booking_date guest_count
                       duration_minutes status special_requests w1
    | (Ok (false, reason), w1) =>
        (Raise (ValueError (CannotCreateBooking reason)), w1)
    | (Raise e, w1) => (Raise e, w1)
    end.
Proof.
  unfold create_booking. unfold bind at 1. unfold bind at 1.
  destruct (check_table_availability _ _ _ _ _) as [[[[|] reason]|e] w1];
    reflexivity.
Qed.


(* ------------------------------------------------------------------ *)
(** ** C7: cancelling releases the slot *)






(* ------------------------------------------------------------------ *)
(** ** C5: update_booking repeats the check, leaving itself out *)








(* ------------------------------------------------------------------ *)
(** ** C10: update_booking on a booking that has no stored row *)

Lemma update_without_id (e : Booking.t) (fs : option (list string)) (w : World) :
  Booking.id e = None ->
  update e fs w = (Raise (ValueError EntityWithoutId), w).
Proof.
  intros Hid. unfold update.
  change (getattr e "id") with (Some (uuid_val (Booking.id e))).
  now rewrite Hid.
Qed.

Lemma update_missing_row (e : Booking.t) (fs : list string) (booking_id : UUID)
      (w : World) :
  Booking.id e = Some booking_id ->
  stored_booking (store w) booking_id = None ->
  exists cause w',
    update e (Some fs) w = (Raise (Exception OpUpdate cause), w')
    /\ store w' = store w
    /\ (trace w' = trace w
        \/ exists s, is_update_of booking_id s
                     /\ trace w' = (trace w ++ [s])%list).
Proof.
  intros Hid Hs. unfold update.
  change (getattr e "id") with (Some (uuid_val (Booking.id e))).
  rewrite Hid. cbn [uuid_val].
  destruct (collect_values e fs) as [values|].
  - unfold bind, execute.
    destruct ((match fs with [] => true | _ :: _ => false end)
              || has_duplicate fs).
    + exists BadSetList. eexists. split; [reflexivity|]. split; [reflexivity|].
      right. eexists. split; [eexists; reflexivity | reflexivity].
    + unfold get_store, put_store, ret. cbn [store with_trace].
      change (rows (A := Booking.t) (store w)) with (booking (store w)).
      assert (Hmap : map (fun r : Booking.t =>
                            if has_id booking_id r then assign fs e r else r)
                         (booking (store w))
                     = booking (store w)).
      { rewrite <- (updated_bookings_untouched e fs booking_id (booking (store w)))
          at 2 by now apply stored_booking_None.
        unfold updated_bookings. apply map_ext. intros r.
        now rewrite Booking_has_id. }
      rewrite Hmap.
      rewrite (find_ext_eq (has_id booking_id)
                 (fun b => option_uuid_eqb (Booking.id b) (Some booking_id)))
        by apply Booking_has_id.
      change (find _ (booking (store w))) with (stored_booking (store w) booking_id).
      rewrite Hs. exists NoRowReturned. eexists.
      split; [reflexivity|]. split.
      * unfold with_store. cbn [store]. apply with_bookings_same.
      * right. eexists. split; [eexists; reflexivity | reflexivity].
  - exists AttributeError, w. split; [reflexivity|]. split; [reflexivity|].
    now left.
Qed.

(** C10.  When the booking handed to [update_booking] (check on) has no
    id, or an id that matches no stored booking, the availability check is
    skipped: the call is the persisting half alone, no table and no list of
    bookings is read, and the failure is the driver's own, never a
    conflict; the store is left as it was. *)
Theorem update_booking_skips_check_without_row
        (w : World) (bk : Booking.t) (update_fields : option (list string)) :
  Booking.id bk = None
  \/ (exists booking_id, Booking.id bk = Some booking_id
                         /\ stored_booking (store w) booking_id = None) ->
  exists e w' w0,
    update_booking bk update_fields true w = (Raise e, w')
    /\ update_booking bk update_fields true w
       = persist_update bk update_fields w0
    /\ (w0 = w \/ exists booking_id, Booking.id bk = Some booking_id
                                     /\ w0 = sent (select_booking booking_id) w)
    /\ (e = ValueError EntityWithoutId \/ exists cause, e = Exception OpUpdate cause)
    /\ (forall reason, e <> ValueError (CannotUpdateBooking reason))
    /\ store w' = store w
    /\ exists sent_now,
        trace w' = (trace w ++ sent_now)%list
        /\ forall s, In s sent_now ->
                     exists booking_id,
                       Booking.id bk = Some booking_id
                       /\ (s = select_booking booking_id
                           \/ is_update_of booking_id s).
Proof.
  intros [Hid | [booking_id [Hid Hs]]].
  - exists (ValueError EntityWithoutId), (with_tick (S (tick w)) w), w.
    rewrite (update_booking_no_id bk update_fields w Hid), persist_update_eq.
    rewrite update_without_id by exact Hid.
    split; [reflexivity|]. split; [reflexivity|]. split; [now left|].
    split; [now left|]. split; [discriminate|]. split; [reflexivity|].
    exists []. split; [symmetry; apply app_nil_r | intros s []].
  - rewrite (update_booking_not_stored bk update_fields booking_id w Hid Hs).
    rewrite persist_update_eq.
    set (w0 := sent (select_booking booking_id) w).
    destruct (update_missing_row
                (Booking.set_updated_at (clock w0 (tick w0)) bk)
                (sent_fields update_fields) booking_id
                (with_tick (S (tick w0)) w0) Hid Hs)
      as [cause [w' [Hrun [Hst Htr]]]].
    exists (Exception OpUpdate cause), w', w0.
    split; [exact Hrun|]. split; [now rewrite persist_update_eq|].
    split; [right; exists booking_id; split; [exact Hid | reflexivity]|].
    split; [right; now exists cause|]. split; [discriminate|].
    split; [exact Hst|].
    destruct Htr as [Htr | [s [Hupd Htr]]].
    + exists [select_booking booking_id]. split; [exact Htr|].
      intros s [<- | []]. exists booking_id. auto.
    + exists [select_booking booking_id; s]. split.
      * rewrite Htr. unfold w0, sent. cbn [trace with_trace with_tick].
        now rewrite <- app_assoc.
      * intros s' [<- | [<- | []]]; exists booking_id; auto.
Qed.

Lemma update_booking_skips_check_without_row_witness :
  (exists booking_id,
      Booking.id booking_50_shifted = Some booking_id
      /\ stored_booking (store (world_of [] [table_7 true] [])) booking_id = None)
  /\ exists e w',
      update_booking booking_50_shifted None true (world_of [] [table_7 true] [])
      = (Raise e, w')
      /\ store w' = store (world_of [] [table_7 true] []).
Proof.
  split; [exists 50%N; split; reflexivity|].
  destruct (update_booking_skips_check_without_row
              (world_of [] [table_7 true] []) booking_50_shifted None)
    as [e [w' [w0 [Hrun [_ [_ [_ [_ [Hst _]]]]]]]]].
  - right. exists 50%N. split; reflexivity.
  - exists e, w'. split; assumption.
Defined.

(* ------------------------------------------------------------------ *)
(** ** C4: user names stay unique *)


Lemma stored_user_None_iff (d : DB) (name : string) :
  stored_user d name = None <->
  forall u, In u (user d) -> User.name u <> name.
Proof.
  unfold stored_user. rewrite find_none_iff.
  split; intros Hall u Hu; specialize (Hall u Hu); now apply String.eqb_neq.
Qed.

Lemma create_user_run (name phone email : string) (w : World) :
  create_user name phone email w =
  match stored_user (store w) name with
  | Some _ => (Raise (ValueError (UserExists name)), sent (select_user name) w)
  | None =>
      let nu := new_user w name phone email in
      let w1 := sent (insert_user_stmt nu)
                     (with_tick (S (S (tick w))) (sent (select_user name) w)) in
      if existsb (fun u => option_uuid_eqb (User.id u)
                             (Some (uuid4_source w (tick w))))
                 (user (store w))
      then (Raise (Exception OpCreate UniqueViolation), w1)
      else (Ok nu,
            with_store (mkDB (user (store w) ++ [nu])
                             (restaurant_table (store w)) (booking (store w)))
                       w1)
  end.
Proof.
  unfold create_user. unfold bind at 1. rewrite get_user_by_name_run.
  destruct (stored_user (store w) name); [reflexivity|].
  cbv zeta. unfold bind, uuid4, datetime_now, create, bind, execute, get_store,
    put_store, ret, sent, with_store, with_trace, with_tick, new_user,
    insert_user_stmt.
  cbn [tick clock uuid4_source store trace].
  change (getattr (A := User.t) ?u "id") with (Some (uuid_val (User.id u))).
  cbn [User.id uuid_val].
  change (rows (A := User.t) ?d) with (user d).
  rewrite (existsb_ext_eq (has_id (uuid4_source w (tick w)))
             (fun u => option_uuid_eqb (User.id u)
                         (Some (uuid4_source w (tick w)))))
    by apply User_has_id.
  cbn [store].
  destruct (existsb _ (user (store w))); reflexivity.
Qed.





(* ------------------------------------------------------------------ *)
(** ** C9: create_booking does not look at the sign of its numbers *)




(* ------------------------------------------------------------------ *)
(** ** C6: schema derivation *)


(** Either slot of a field descriptor holds [MISSING] unless the other
    was supplied, and [MISSING] is not [None]: the NOT NULL branch is
    taken by no field that [dataclasses] can describe. *)
Lemma column_constraint_not_null (f : Field) :
  column_constraint f = NOT_NULL ->
  default f = IsNone /\ default_factory f = IsNone.
Proof.
  unfold column_constraint. destruct (String.eqb (field_name f) "id");
    [discriminate|].
  destruct (default f), (default_factory f); simpl; try discriminate; auto.
Qed.





(* ------------------------------------------------------------------ *)
(** ** The concrete run *)

(** Every step of the run from the empty database succeeds, and it ends
    with the table switched off and its booking still confirmed. *)
Example switched_off_reached :
  fst (create_table 1 2 "window" true empty_world)
  = Ok (Table.mk 1 2 "window" (Some 100%N) true)
  /\ fst (create_booking 1%N 100%N 0 2 120 "confirmed" "" true opened)
     = Ok (booking_101 "confirmed" 3)
  /\ fst (update_table (Table.mk 1 2 "window" (Some 100%N) false)
                       (Some ["is_available"]) booked)
     = Ok (Table.mk 1 2 "window" (Some 100%N) false)
  /\ store switched_off
     = mkDB [] [Table.mk 1 2 "window" (Some 100%N) false]
            [booking_101 "confirmed" 3].
Proof. repeat split; reflexivity. Qed.

(* ------------------------------------------------------------------ *)
(** ** The availability check on concrete requests *)

(** The boundary cases of the specification: next to a booking that lasts
    from minute 0 to minute 120, a request starting at minute 120 is
    accepted and one starting at minute 119 is refused. *)
Example request_at_the_end_is_accepted :
  fst (check_table_availability 7%N (timedelta_minutes 120) 60 None
         (world_of [] [table_7 true] [booking_50 "confirmed"]))
  = Ok (true, None).
Proof. reflexivity. Qed.

Example request_one_minute_earlier_is_refused :
  fst (check_table_availability 7%N (timedelta_minutes 119) 60 None
         (world_of [] [table_7 true] [booking_50 "confirmed"]))
  = Ok (false, Some (AlreadyBooked (booking_50 "confirmed"))).
Proof. reflexivity. Qed.


Lemma check_table_availability_fails_closed_witness :
  (exists table,
      stored_table (store (world_of [] [table_7 false] [booking_50 "confirmed"]))
                   7%N = Some table
      /\ Table.is_available table = false)
  /\ exists reason w',
      check_table_availability 7%N 0 120 None
        (world_of [] [table_7 false] [booking_50 "confirmed"])
      = (Ok (false, Some reason), w').
Proof.
  assert (Hoff : exists table,
             stored_table
               (store (world_of [] [table_7 false] [booking_50 "confirmed"]))
               7%N = Some table
             /\ Table.is_available table = false).
  { exists (table_7 false). split; reflexivity. }
  split; [exact Hoff|].
  destruct (check_table_availability_fails_closed
              (world_of [] [table_7 false] [booking_50 "confirmed"])
              7%N 0 120 None (or_intror Hoff))
    as [reason [w' [Hrun _]]].
  exists reason, w'. exact Hrun.
Defined.

(* ------------------------------------------------------------------ *)
(** ** Schema derivation: annotations and constraints *)

(** X1.  A subscripted annotation gets the column type of its first
    argument that is not [NoneType], whichever of the two branches of
    [_python_type_to_postgres] handles it: [Optional[X]] maps as [X] in
    either argument order, and a generic without [NoneType] maps as its
    first argument. *)
Theorem subscripted_annotation_column_type (args : list py_base) (x : py_base) :
  find (fun a => negb (is_NoneType a)) args = Some x ->
  _python_type_to_postgres (Subscripted args)
  = _python_type_to_postgres (Plain x).
Proof.
  intros Hfind. unfold _python_type_to_postgres.
  destruct args as [|a args']; [discriminate Hfind|].
  cbn [unwrap_annotation].
  destruct (existsb is_NoneType (a :: args')) eqn:Hn; cbn [negb].
  - now rewrite Hfind.
  - cbn [existsb] in Hn. apply orb_false_iff in Hn. destruct Hn as [Ha _].
    cbn [find] in Hfind. rewrite Ha in Hfind. cbn [negb] in Hfind.
    now injection Hfind as ->.
Qed.

Lemma subscripted_annotation_column_type_witness :
  find (fun a => negb (is_NoneType a)) [T_NoneType; T_int] = Some T_int
  /\ _python_type_to_postgres (Subscripted [T_NoneType; T_int]) = "INTEGER".
Proof.
  split; [reflexivity|].
  rewrite (subscripted_annotation_column_type [T_NoneType; T_int] T_int eq_refl).
  reflexivity.
Defined.

(** X2.  A field descriptor built by [dataclasses] has [MISSING] in its
    [default] or in its [default_factory] slot, and [MISSING] is not
    [None]: for every such field the column definition is the name and the
    type, followed by PRIMARY KEY for the field [id] and by nothing
    otherwise.  NOT NULL is never written. *)
Theorem column_def_without_not_null (f : Field) :
  default f = MISSING \/ default_factory f = MISSING ->
  column_constraint f <> NOT_NULL
  /\ column_def f
     = ((field_name f ++ " " ++ _python_type_to_postgres (field_type f))
        ++ (if String.eqb (field_name f) "id" then " PRIMARY KEY" else ""))%string.
Proof.
  intros Hm.
  assert (Hc : column_constraint f
               = if String.eqb (field_name f) "id" then PRIMARY_KEY
                 else NoConstraint).
  { unfold column_constraint. destruct (String.eqb (field_name f) "id");
      [reflexivity|].
    destruct Hm as [-> | ->]; [reflexivity|].
    destruct (default f); reflexivity. }
  unfold column_def. rewrite Hc.
  destruct (String.eqb (field_name f) "id"); split; (discriminate || reflexivity).
Qed.

Lemma column_def_without_not_null_witness :
  (default (required "name" (Plain T_str)) = MISSING
   \/ default_factory (required "name" (Plain T_str)) = MISSING)
  /\ column_def (required "name" (Plain T_str)) = "name VARCHAR(255)".
Proof.
  split; [left; reflexivity|].
  destruct (column_def_without_not_null (required "name" (Plain T_str))
              (or_introl eq_refl)) as [_ Hd].
  rewrite Hd. reflexivity.
Defined.

(* ------------------------------------------------------------------ *)
(** ** Listings *)

Lemma filter_strongly_sorted {A} (R : A -> A -> Prop) (p : A -> bool)
      (l : list A) :
  StronglySorted R l -> StronglySorted R (filter p l).
Proof.
  induction 1 as [|x l Hs IH Hall]; simpl; [constructor|].
  destruct (p x); [|exact IH].
  constructor; [exact IH|].
  rewrite Forall_forall in *. intros y Hy. apply filter_In in Hy.
  apply Hall. tauto.
Qed.

Section SortedBy.
Context {A : Type} `{Entity A}.
Variable c : string.
Variable key : A -> Z.
Hypothesis key_leb :
  forall x y, sql_leb (column c x) (column c y) = (key x <=? key y).

Lemma insert_by_permutation (x : A) (l : list A) :
  Permutation (x :: l) (insert_by c x l).
Proof.
  induction l as [|y l IH]; simpl; [reflexivity|].
  destruct (sql_leb (column c x) (column c y)); [reflexivity|].
  rewrite perm_swap. now constructor.
Qed.

Lemma sort_by_permutation (l : list A) : Permutation l (sort_by c l).
Proof.
  induction l as [|x l IH]; simpl; [reflexivity|].
  rewrite <- insert_by_permutation. now constructor.
Qed.

Lemma insert_by_sorted (x : A) (l : list A) :
  StronglySorted (fun a b => key a <= key b) l ->
  StronglySorted (fun a b => key a <= key b) (insert_by c x l).
Proof.
  induction 1 as [|y l Hs IH Hall]; simpl.
  - constructor; constructor.
  - rewrite key_leb. destruct (key x <=? key y) eqn:Hle.
    + apply Z.leb_le in Hle. constructor; [now constructor|].
      constructor; [exact Hle|].
      rewrite Forall_forall in *. intros z Hz. specialize (Hall z Hz). lia.
    + apply Z.leb_gt in Hle. constructor; [exact IH|].
      rewrite Forall_forall in *. intros z Hz. apply in_insert_by in Hz.
      destruct Hz as [-> | Hz]; [lia | now apply Hall].
Qed.

Lemma sort_by_sorted (l : list A) :
  StronglySorted (fun a b => key a <= key b) (sort_by c l).
Proof.
  induction l as [|x l IH]; simpl; [constructor | now apply insert_by_sorted].
Qed.
End SortedBy.

Lemma get_bookings_by_user_run (user_id : UUID) (w : World) :
  get_bookings_by_user user_id w
  = (Ok (sort_by "booking_date"
           (filter (fun b => N.eqb (Booking.user_id b) user_id)
                   (booking (store w)))),
     sent (select_bookings_of_user user_id) w).
Proof.
  unfold get_bookings_by_user, get_all_bookings.
  rewrite read_ordered by reflexivity. f_equal. f_equal. f_equal.
  apply filter_ext_eq. intros b. unfold row_matches, column. cbn.
  now rewrite andb_true_r.
Qed.

Lemma sorted_by_booking_date (l : list Booking.t) :
  StronglySorted by_date (sort_by "booking_date" l).
Proof.
  apply (sort_by_sorted "booking_date" Booking.booking_date).
  intros x y. unfold column. cbn [getattr Booking_entity].
  unfold Booking_getattr. cbn [String.eqb Ascii.eqb Bool.eqb]. reflexivity.
Qed.

Lemma sorted_by_number (l : list Table.t) :
  StronglySorted by_number (sort_by "number" l).
Proof.
  apply (sort_by_sorted "number" Table.number).
  intros x y. unfold column. cbn [getattr Table_entity].
  unfold Table_getattr. cbn [String.eqb Ascii.eqb Bool.eqb]. reflexivity.
Qed.

(** X3.  [get_bookings_by_user] and [get_bookings_by_table] return the
    stored bookings of the user, respectively of the table, each as often
    as it is stored, in ascending order of [booking_date]. *)
Theorem bookings_listed_by_date (w : World) (user_id table_id : UUID) :
  (exists l,
      get_bookings_by_user user_id w
      = (Ok l, sent (select_bookings_of_user user_id) w)
      /\ Permutation (filter (fun b => N.eqb (Booking.user_id b) user_id)
                             (booking (store w))) l
      /\ StronglySorted by_date l)
  /\ (exists l,
         get_bookings_by_table table_id w
         = (Ok l, sent (select_bookings_of table_id) w)
         /\ Permutation (filter (fun b => N.eqb (Booking.table_id b) table_id)
                                (booking (store w))) l
         /\ StronglySorted by_date l).
Proof.
  split.
  - eexists. split; [apply get_bookings_by_user_run|].
    split; [apply sort_by_permutation|]. apply sorted_by_booking_date.
  - eexists. split; [apply get_bookings_by_table_run|].
    split; [apply sort_by_permutation|]. apply sorted_by_booking_date.
Qed.

(** X4.  [get_available_tables] returns exactly the stored tables whose
    flag is on, that are at the wanted location unless the location is
    absent or empty, and that seat at least [capacity] unless the capacity
    is absent or zero; they come in ascending order of their number, and
    the store is left as it was. *)
Theorem get_available_tables_selects
        (w : World) (capacity : option Z) (location : option string) :
  exists l w',
    get_available_tables capacity location w = (Ok l, w')
    /\ store w' = store w
    /\ (forall t, In t l <->
                  In t (restaurant_table (store w))
                  /\ Table.is_available t = true
                  /\ wanted_location location t = true
                  /\ wanted_capacity capacity t = true)
    /\ StronglySorted by_number l.
Proof.
  unfold get_available_tables, get_all_tables, bind.
  set (filters := ([("is_available", PBool true)] ++ _)%list).
  assert (Hcols : forallb (is_column (A := Table.t)) (map fst filters) = true).
  { unfold filters. destruct location as [l|]; [|reflexivity].
    destruct (String.eqb l ""); reflexivity. }
  rewrite (read_ordered filters "number" w Hcols eq_refl eq_refl).
  assert (Hmatch : forall t, row_matches filters t
                             = Table.is_available t && wanted_location location t).
  { intros t. unfold filters, row_matches, column, wanted_location.
    destruct location as [l|]; cbn.
    - destruct (String.eqb l ""); cbn;
        destruct (Table.is_available t); cbn; now rewrite ?andb_true_r.
    - destruct (Table.is_available t); reflexivity. }
  set (sorted := sort_by "number" (filter (row_matches filters)
                                          (restaurant_table (store w)))).
  assert (Hin : forall t, In t sorted <->
                          In t (restaurant_table (store w))
                          /\ Table.is_available t = true
                          /\ wanted_location location t = true).
  { intros t. unfold sorted. rewrite in_sort_by, filter_In, Hmatch, andb_true_iff.
    tauto. }
  assert (Hsorted : StronglySorted by_number sorted)
    by apply sorted_by_number.
  change (rows (store w)) with (restaurant_table (store w)). fold sorted.
  unfold ret. eexists. eexists. split; [reflexivity|]. split; [reflexivity|].
  destruct capacity as [c|]; cbn [wanted_capacity].
  - destruct (c =? 0); cbn [orb].
    + split; [|exact Hsorted]. intros t. rewrite Hin. tauto.
    + split; [|now apply filter_strongly_sorted].
      intros t. rewrite filter_In, Hin. tauto.
  - split; [|exact Hsorted]. intros t. rewrite Hin. tauto.
Qed.

(* ------------------------------------------------------------------ *)
(** ** The driver's SELECT and DELETE *)

Lemma in_firstn {A} (n : nat) (l : list A) (x : A) :
  In x (firstn n l) -> In x l.
Proof.
  intros Hx. rewrite <- (firstn_skipn n l). apply in_or_app. now left.
Qed.

Section DriverFacts.
Context {A : Type} `{Entity A}.

Lemma read_store (filters : list (string * pyval)) (limit : option Z)
      (order_by : option string) (w : World) :
  snd (read filters limit order_by w)
  = sent (SELECT table_name filters order_by limit) w.
Proof.
  unfold read, bind, execute.
  destruct (negb (forallb is_column (map fst filters))); [reflexivity|].
  destruct (match match order_by with
                  | Some c => if String.eqb c "" then None else Some c
                  | None => None
                  end with
            | Some c => negb (is_column c)
            | None => false
            end); [reflexivity|].
  destruct (match match limit with
                  | Some n => if n =? 0 then None else Some n
                  | None => None
                  end with
            | Some n => n <? 0
            | None => false
            end); reflexivity.
Qed.

(** What a SELECT that returned has returned, before ordering and limit
    are looked at. *)
Lemma read_returned (filters : list (string * pyval)) (limit : option Z)
      (order_by : option string) (w : World) (l : list A) (w' : World) :
  read filters limit order_by w = (Ok l, w') ->
  exists ordered,
    Permutation (filter (row_matches filters) (rows (store w))) ordered
    /\ l = match limit with
           | Some n => if n =? 0 then ordered else firstn (Z.to_nat n) ordered
           | None => ordered
           end
    /\ match limit with Some n => 0 <= n | None => True end.
Proof.
  unfold read, bind, execute, get_store, ret. cbn [store with_trace].
  destruct (negb (forallb is_column (map fst filters))); [discriminate|].
  set (ob := match order_by with
             | Some c => if String.eqb c "" then None else Some c
             | None => None
             end).
  destruct (match ob with Some c => negb (is_column c) | None => false end);
    [discriminate|].
  destruct limit as [n|].
  - destruct (n =? 0) eqn:Hz.
    + intros Hrun. injection Hrun as <- _.
      eexists. split; [|split; [reflexivity | apply Z.eqb_eq in Hz; lia]].
      destruct ob; [apply sort_by_permutation | reflexivity].
    + destruct (n <? 0) eqn:Hneg; [discriminate|].
      intros Hrun. injection Hrun as <- _.
      eexists. split; [|split; [reflexivity | apply Z.ltb_ge in Hneg; lia]].
      destruct ob; [apply sort_by_permutation | reflexivity].
  - intros Hrun. injection Hrun as <- _.
    eexists. split; [|split; [reflexivity | exact I]].
    destruct ob; [apply sort_by_permutation | reflexivity].
Qed.

(** X5.  [read] never changes the store.  When it returns, every row it
    returns is stored and matches all filters; a positive [limit] bounds
    the number of rows; without a limit, and also with [limit=0], which is
    falsy, every matching stored row is returned as often as it is stored.
    A negative [limit] makes the call raise. *)
Theorem read_filters_and_limit
        (filters : list (string * pyval)) (limit : option Z)
        (order_by : option string) (w : World) :
  store (snd (read filters limit order_by w)) = store w
  /\ (forall l w',
         read filters limit order_by w = (Ok l, w') ->
         (forall r, In r l ->
                    In r (rows (store w)) /\ row_matches filters r = true)
         /\ (forall n, limit = Some n -> 0 < n ->
                       Z.of_nat (List.length l) <= n)
         /\ (limit = None \/ limit = Some 0 ->
             Permutation (filter (row_matches filters) (rows (store w))) l))
  /\ (forall n, limit = Some n -> n < 0 ->
                exists e, fst (read filters limit order_by w) = Raise e).
Proof.
  split; [now rewrite read_store|]. split.
  - intros l w' Hrun.
    destruct (read_returned _ _ _ _ _ _ Hrun) as [ordered [Hperm [Hl Hn]]].
    assert (Hsub : forall r, In r l -> In r ordered).
    { intros r Hr. rewrite Hl in Hr. destruct limit as [n|]; [|exact Hr].
      destruct (n =? 0); [exact Hr|]. now apply (in_firstn (Z.to_nat n)). }
    split; [|split].
    + intros r Hr. apply Hsub in Hr.
      apply (Permutation_in _ (Permutation_sym Hperm)) in Hr.
      now apply filter_In in Hr.
    + intros n -> Hpos. rewrite Hl.
      replace (n =? 0) with false by (symmetry; apply Z.eqb_neq; lia).
      pose proof (firstn_le_length (Z.to_nat n) ordered). lia.
    + intros [-> | ->]; rewrite Hl; exact Hperm.
  - intros n -> Hneg. unfold read, bind, execute.
    destruct (negb (forallb is_column (map fst filters))); [eexists; reflexivity|].
    destruct (match match order_by with
                    | Some c => if String.eqb c "" then None else Some c
                    | None => None
                    end with
              | Some c => negb (is_column c)
              | None => false
              end); [eexists; reflexivity|].
    replace (n =? 0) with false by (symmetry; apply Z.eqb_neq; lia).
    replace (n <? 0) with true by (symmetry; apply Z.ltb_lt; lia).
    eexists; reflexivity.
Qed.

Lemma delete_run (entity_id : UUID) (w : World) :
  delete entity_id w
  = (Ok (existsb (has_id entity_id) (rows (store w))),
     with_store
       (with_rows (filter (fun r => negb (has_id entity_id r)) (rows (store w)))
                  (store w))
       (sent (DELETE table_name entity_id) w)).
Proof. reflexivity. Qed.

End DriverFacts.

(* ------------------------------------------------------------------ *)
(** ** Confirming, cancelling and deleting *)

(** X6.  For an id that matches no stored booking, [confirm_booking] and
    [cancel_booking] return [None] after the one lookup, write nothing and
    raise nothing. *)
Theorem transition_of_missing_booking (w : World) (booking_id : UUID) :
  (forall b, In b (booking (store w)) -> Booking.id b <> Some booking_id) ->
  confirm_booking booking_id w = (Ok None, sent (select_booking booking_id) w)
  /\ cancel_booking booking_id w = (Ok None, sent (select_booking booking_id) w)
  /\ store (sent (select_booking booking_id) w) = store w.
Proof.
  intros Hnone. apply stored_booking_None in Hnone.
  unfold confirm_booking, cancel_booking, bind.
  rewrite get_booking_by_id_run, Hnone. repeat split.
Qed.

Lemma transition_of_missing_booking_witness :
  (forall b, In b (booking (store booked)) -> Booking.id b <> Some 7%N)
  /\ confirm_booking 7%N booked = (Ok None, sent (select_booking 7%N) booked).
Proof.
  assert (Hnone : forall b, In b (booking (store booked)) ->
                            Booking.id b <> Some 7%N).
  { intros b [<- | []]. discriminate. }
  split; [exact Hnone|].
  exact (proj1 (transition_of_missing_booking booked 7%N Hnone)).
Defined.

Lemma delete_booking_run (booking_id : UUID) (w : World) :
  delete_booking booking_id w
  = (Ok (match stored_booking (store w) booking_id with
         | Some _ => true
         | None => false
         end),
     with_store
       (with_bookings
          (filter (fun b => negb (option_uuid_eqb (Booking.id b) (Some booking_id)))
                  (booking (store w)))
          (store w))
       (sent (DELETE "booking" booking_id) w)).
Proof.
  unfold delete_booking. rewrite delete_run.
  change (rows (A := Booking.t) (store w)) with (booking (store w)).
  rewrite Booking_id_stored.
  rewrite (filter_ext_eq (fun r => negb (has_id booking_id r))
             (fun b => negb (option_uuid_eqb (Booking.id b) (Some booking_id))))
    by (intros b; now rewrite Booking_has_id).
  reflexivity.
Qed.

(** X7.  [delete_booking] answers [True] exactly when a booking with the
    id was stored.  Afterwards no stored booking has the id, every other
    booking is stored as before, users and tables are untouched, and a
    second deletion of the same id answers [False]. *)
Theorem delete_booking_removes (w : World) (booking_id : UUID) :
  exists deleted w',
    delete_booking booking_id w = (Ok deleted, w')
    /\ (deleted = true <->
        exists b, In b (booking (store w)) /\ Booking.id b = Some booking_id)
    /\ (forall b, In b (booking (store w')) <->
                  In b (booking (store w)) /\ Booking.id b <> Some booking_id)
    /\ user (store w') = user (store w)
    /\ restaurant_table (store w') = restaurant_table (store w)
    /\ fst (delete_booking booking_id w') = Ok false.
Proof.
  rewrite delete_booking_run. eexists. eexists. split; [reflexivity|].
  assert (Hin : forall b,
             In b (filter (fun b => negb (option_uuid_eqb (Booking.id b)
                                            (Some booking_id)))
                          (booking (store w))) <->
             In b (booking (store w)) /\ Booking.id b <> Some booking_id).
  { intros b. now rewrite filter_In, negb_true_iff, option_uuid_eqb_neq. }
  split; [|split; [exact Hin | split; [reflexivity | split; [reflexivity|]]]].
  - destruct (stored_booking (store w) booking_id) as [b|] eqn:Hs.
    + split; [|reflexivity]. intros _. exists b. now apply stored_booking_Some.
    + split; [discriminate|]. intros [b [Hb Hid]].
      rewrite stored_booking_None in Hs. now elim (Hs b Hb).
  - rewrite delete_booking_run. cbn [fst store with_store].
    replace (stored_booking _ booking_id) with (@None Booking.t); [reflexivity|].
    symmetry. apply stored_booking_None. cbn [with_bookings booking].
    intros b Hb. now apply Hin in Hb.
Qed.

Lemma Table_id_stored (u : UUID) (d : DB) :
  find (has_id u) (restaurant_table d) = stored_table d u.
Proof. apply find_ext_eq. intros t. apply Table_has_id. Qed.

Lemma stored_table_None (d : DB) (table_id : UUID) :
  stored_table d table_id = None <->
  forall t, In t (restaurant_table d) -> Table.id t <> Some table_id.
Proof.
  unfold stored_table. rewrite find_none_iff.
  split; intros Hall t Ht; specialize (Hall t Ht); now apply option_uuid_eqb_neq.
Qed.

(** X8.  Deletions do not cascade.  [delete_table] removes the tables
    with the id and nothing else: the bookings of the table stay stored
    and are still listed by [get_bookings_by_table], while every
    availability check for the table now answers that the table is not
    found.  [delete_user] leaves all bookings and tables as they are. *)
Theorem deletions_do_not_cascade (w : World) (table_id user_id : UUID) :
  (booking (store (snd (delete_table table_id w))) = booking (store w)
   /\ user (store (snd (delete_table table_id w))) = user (store w)
   /\ (forall t, In t (restaurant_table (store (snd (delete_table table_id w))))
                 <-> In t (restaurant_table (store w))
                     /\ Table.id t <> Some table_id)
   /\ fst (get_bookings_by_table table_id (snd (delete_table table_id w)))
      = fst (get_bookings_by_table table_id w)
   /\ forall S D ex,
       fst (check_table_availability table_id S D ex
              (snd (delete_table table_id w)))
       = Ok (false, Some TableNotFound))
  /\ (booking (store (snd (delete_user user_id w))) = booking (store w)
      /\ restaurant_table (store (snd (delete_user user_id w)))
         = restaurant_table (store w)
      /\ fst (get_bookings_by_user user_id (snd (delete_user user_id w)))
         = fst (get_bookings_by_user user_id w)).
Proof.
  unfold delete_table, delete_user. rewrite !delete_run. cbn [snd].
  assert (Hin : forall t,
             In t (filter (fun r => negb (has_id table_id r))
                          (restaurant_table (store w))) <->
             In t (restaurant_table (store w)) /\ Table.id t <> Some table_id).
  { intros t. now rewrite filter_In, negb_true_iff, Table_has_id,
                option_uuid_eqb_neq. }
  split; [split; [reflexivity | split; [reflexivity | split; [exact Hin | split]]]
         | split; [reflexivity | split; [reflexivity|]]].
  - now rewrite !get_bookings_by_table_run.
  - intros S D ex. rewrite check_table_availability_run.
    cbn [store with_store].
    replace (stored_table _ table_id) with (@None Table.t); [reflexivity|].
    symmetry. apply stored_table_None. intros t Ht.
    change (restaurant_table (with_rows ?l ?d)) with l in Ht.
    now apply Hin in Ht.
  - now rewrite !get_bookings_by_user_run.
Qed.

(* ------------------------------------------------------------------ *)
(** ** What was created is found again *)

Lemma find_app_none {A} (p : A -> bool) (l l' : list A) :
  find p l = None -> find p (l ++ l') = find p l'.
Proof.
  induction l as [|x l IH]; simpl; [reflexivity|].
  destruct (p x); [discriminate | exact IH].
Qed.




Lemma get_table_by_number_run (number : Z) (w : World) :
  get_table_by_number number w
  = (Ok (find (fun t => Table.number t =? number) (restaurant_table (store w))),
     sent (SELECT "restaurant_table" [("number", PInt number)] None (Some 1)) w).
Proof.
  unfold get_table_by_number, bind. rewrite read_first by reflexivity.
  unfold ret. rewrite hd_error_firstn_filter.
  f_equal. f_equal. apply find_ext_eq. intros t.
  unfold row_matches, column. cbn. now rewrite andb_true_r.
Qed.



Lemma create_table_run (number capacity : Z) (location : string)
      (is_available : bool) (w : World) :
  create_table number capacity location is_available w =
  match find (fun t => Table.number t =? number) (restaurant_table (store w)) with
  | Some _ =>
      (Raise (ValueError (TableNumberExists number)),
       sent (SELECT "restaurant_table" [("number", PInt number)] None (Some 1)) w)
  | None =>
      let nt := Table.mk number capacity location
                         (Some (uuid4_source w (tick w))) is_available in
      let w1 := sent (INSERT "restaurant_table"
                             (map (getattr nt) (field_names (A := Table.t))))
                     (with_tick (S (tick w))
                        (sent (SELECT "restaurant_table"
                                      [("number", PInt number)] None (Some 1)) w)) in
      match stored_table (store w) (uuid4_source w (tick w)) with
      | Some _ => (Raise (Exception OpCreate UniqueViolation), w1)
      | None =>
          (Ok nt,
           with_store (mkDB (user (store w)) (restaurant_table (store w) ++ [nt])
                            (booking (store w)))
                      w1)
      end
  end.
Proof.
  unfold create_table. unfold bind at 1. rewrite get_table_by_number_run.
  destruct (find _ (restaurant_table (store w))); [reflexivity|].
  cbv zeta. unfold bind, uuid4, create, bind, execute, get_store,
    put_store, ret, sent, with_store, with_trace, with_tick.
  cbn [tick clock uuid4_source store trace].
  change (getattr (A := Table.t) ?t "id") with (Some (uuid_val (Table.id t))).
  cbn [Table.id uuid_val].
  change (rows (A := Table.t) ?d) with (restaurant_table d).
  rewrite find_existsb, Table_id_stored. cbn [store].
  destruct (stored_table (store w) (uuid4_source w (tick w))); reflexivity.
Qed.

(** X10.  [create_table] refuses a number that a stored table has, with
    the uniqueness error and without writing.  A table it returned is
    found again, by number and by id, as that very table. *)
Theorem created_table_is_found
        (w : World) (number capacity : Z) (location : string)
        (is_available : bool) :
  ((exists t, In t (restaurant_table (store w)) /\ Table.number t = number) ->
   exists w',
     create_table number capacity location is_available w
     = (Raise (ValueError (TableNumberExists number)), w')
     /\ store w' = store w)
  /\ (forall t w',
         create_table number capacity location is_available w = (Ok t, w') ->
         Table.number t = number /\ Table.capacity t = capacity
         /\ Table.location t = location /\ Table.is_available t = is_available
         /\ fst (get_table_by_number number w') = Ok (Some t)
         /\ exists table_id, Table.id t = Some table_id
                             /\ fst (get_table_by_id table_id w') = Ok (Some t)).
Proof.
  rewrite create_table_run. split.
  - intros [t [Hin Hnum]].
    destruct (find _ (restaurant_table (store w))) eqn:Hf.
    + eexists. split; reflexivity.
    + apply (find_none _ _ Hf) in Hin. apply Z.eqb_neq in Hin. contradiction.
  - intros t w'.
    destruct (find _ (restaurant_table (store w))) eqn:Hnum; [discriminate|].
    cbv zeta.
    destruct (stored_table (store w) (uuid4_source w (tick w))) eqn:Hid;
      [discriminate|].
    intros Hrun. injection Hrun as <- <-.
    repeat (split; [reflexivity|]). split.
    + rewrite get_table_by_number_run. cbn [fst store with_store restaurant_table].
      rewrite (find_app_none _ _ _ Hnum). cbn. now rewrite Z.eqb_refl.
    + eexists. split; [reflexivity|]. rewrite get_table_by_id_run.
      unfold stored_table in *. cbn [fst store with_store restaurant_table].
      rewrite (find_app_none _ _ _ Hid). cbn. now rewrite N.eqb_refl.
Qed.

Lemma created_table_is_found_witness :
  (exists t, In t (restaurant_table (store opened)) /\ Table.number t = 1)
  /\ fst (create_table 1 8 "corner" true opened)
     = Raise (ValueError (TableNumberExists 1)).
Proof.
  assert (Hex : exists t, In t (restaurant_table (store opened))
                          /\ Table.number t = 1).
  { eexists. split; [left; reflexivity | reflexivity]. }
  split; [exact Hex|].
  destruct (proj1 (created_table_is_found opened 1 8 "corner" true) Hex)
    as [w' [Hrun _]].
  now rewrite Hrun.
Defined.

(** What a [create_booking] that returned has done. *)
Lemma create_booking_ok (user_id table_id : UUID) (S : datetime)
      (guest_count D : Z) (status special_requests : string) (chk : bool)
      (w w' : World) (nb : Booking.t) :
  create_booking user_id table_id S guest_count D status special_requests chk w
  = (Ok nb, w') ->
  exists w1,
    store w1 = store w
    /\ nb = new_booking w1 user_id table_id S guest_count D status special_requests
    /\ w' = after_insert_booking nb w1
    /\ (forall b, In b (booking (store w)) -> Booking.id b <> Booking.id nb)
    /\ (chk = true ->
        forall b, In b (active_bookings_of (store w) table_id None) ->
                  intersects S (S + timedelta_minutes D) b = false).
Proof.
  assert (Hins : forall w1, store w1 = store w ->
            insert_booking user_id table_id S guest_count D status
                           special_requests w1 = (Ok nb, w') ->
            nb = new_booking w1 user_id table_id S guest_count D status
                             special_requests
            /\ w' = after_insert_booking nb w1
            /\ (forall b, In b (booking (store w)) ->
                          Booking.id b <> Booking.id nb)).
  { intros w1 Hst. rewrite insert_booking_run.
    destruct (stored_booking (store w1) (uuid4_source w1 (tick w1))) eqn:Hf;
      [discriminate|].
    intros Hrun. injection Hrun as <- <-.
    split; [reflexivity|]. split; [reflexivity|].
    rewrite Hst in Hf. rewrite stored_booking_None in Hf. exact Hf. }
  destruct chk.
  - rewrite create_booking_checked, check_table_availability_run.
    destruct (stored_table (store w) table_id) as [t|]; [|discriminate].
    destruct (Table.is_available t); [|discriminate].
    destruct (first_conflict S (S + timedelta_minutes D)
                (active_bookings_of (store w) table_id None))
      as [[|] reason] eqn:Hfc; [|discriminate].
    intros Hrun.
    exists (sent (select_bookings_of table_id) (sent (select_table table_id) w)).
    destruct (Hins (sent (select_bookings_of table_id)
                         (sent (select_table table_id) w)) eq_refl Hrun)
      as [H1 [H2 H3]].
    split; [reflexivity|]. split; [exact H1|]. split; [exact H2|].
    split; [exact H3|].
    intros _ b Hb.
    pose proof (first_conflict_fst S (S + timedelta_minutes D)
                  (active_bookings_of (store w) table_id None)) as Hfst.
    rewrite Hfc in Hfst. cbn [fst] in Hfst. symmetry in Hfst.
    apply negb_true_iff in Hfst.
    destruct (intersects S (S + timedelta_minutes D) b) eqn:Hi; [|reflexivity].
    assert (existsb (intersects S (S + timedelta_minutes D))
              (active_bookings_of (store w) table_id None) = true)
      by (apply existsb_exists; eauto).
    congruence.
  - rewrite create_booking_unchecked. intros Hrun. exists w.
    split; [reflexivity|]. destruct (Hins w eq_refl Hrun) as [H1 [H2 H3]].
    split; [exact H1 | split; [exact H2 | split; [exact H3 | discriminate]]].
Qed.

(** X11.  A booking that [create_booking] returned carries the values it
    was given and is found again: the lookup by its id returns that very
    booking, and the listings of its table and of its user contain it. *)
Theorem created_booking_is_found
        (w w' : World) (user_id table_id : UUID) (S : datetime)
        (guest_count D : Z) (status special_requests : string) (chk : bool)
        (nb : Booking.t) :
  create_booking user_id table_id S guest_count D status special_requests chk w
  = (Ok nb, w') ->
  Booking.user_id nb = user_id /\ Booking.table_id nb = table_id
  /\ Booking.booking_date nb = S /\ Booking.guest_count nb = guest_count
  /\ Booking.duration_minutes nb = D /\ Booking.status nb = status
  /\ Booking.special_requests nb = special_requests
  /\ (exists booking_id, Booking.id nb = Some booking_id
                         /\ fst (get_booking_by_id booking_id w') = Ok (Some nb))
  /\ (exists l, fst (get_bookings_by_table table_id w') = Ok l /\ In nb l)
  /\ (exists l, fst (get_bookings_by_user user_id w') = Ok l /\ In nb l).
Proof.
  intros Hrun. apply create_booking_ok in Hrun.
  destruct Hrun as [w1 [Hst [Hnb [-> [Hfresh _]]]]].
  assert (Hin : In nb (booking (store (after_insert_booking nb w1))))
    by apply in_after_insert_booking.
  rewrite Hnb at 1 2 3 4 5 6 7. repeat (split; [reflexivity|]).
  split; [|split].
  - exists (uuid4_source w1 (tick w1)). split; [now rewrite Hnb|].
    rewrite get_booking_by_id_run. unfold stored_booking, after_insert_booking.
    cbn [fst store with_store with_bookings booking].
    rewrite find_app_none.
    + rewrite Hnb. cbn. now rewrite N.eqb_refl.
    + apply find_none_iff. intros b Hb. apply option_uuid_eqb_neq.
      rewrite Hst in Hb. specialize (Hfresh b Hb). now rewrite Hnb in Hfresh.
  - eexists. rewrite get_bookings_by_table_run. split; [reflexivity|].
    apply in_sort_by, filter_In. split; [exact Hin|].
    rewrite Hnb. cbn. apply N.eqb_refl.
  - eexists. rewrite get_bookings_by_user_run. split; [reflexivity|].
    apply in_sort_by, filter_In. split; [exact Hin|].
    rewrite Hnb. cbn. apply N.eqb_refl.
Qed.

Lemma created_booking_is_found_witness :
  create_booking 1%N 100%N 0 2 120 "confirmed" "" true opened
  = (Ok (booking_101 "confirmed" 3), booked)
  /\ fst (get_booking_by_id 101%N booked) = Ok (Some (booking_101 "confirmed" 3)).
Proof.
  assert (Hrun : create_booking 1%N 100%N 0 2 120 "confirmed" "" true opened
                 = (Ok (booking_101 "confirmed" 3), booked)) by reflexivity.
  split; [exact Hrun|].
  destruct (created_booking_is_found _ _ _ _ _ _ _ _ _ _ _ Hrun)
    as [_ [_ [_ [_ [_ [_ [_ [[i [Hi Hget]] _]]]]]]]].
  injection Hi as <-. exact Hget.
Defined.

(* ------------------------------------------------------------------ *)
(** ** What an UPDATE of a booking writes *)

Ltac column_case f s :=
  rewrite !(String.eqb_sym f); destruct (String.eqb s f); reflexivity.

Ltac split_column c :=
  repeat match goal with
         | |- context [String.eqb c ?s] =>
             destruct (String.eqb_spec c s) as [-> | ?]
         end.

Lemma Booking_column_copy (c f : string) (e r : Booking.t) :
  column c (copy_attr f e r)
  = if String.eqb c f then column c e else column c r.
Proof.
  unfold column. cbn [getattr copy_attr Booking_entity].
  unfold Booking_getattr, Booking_copy_attr.
  destruct (String.eqb_spec c "user_id") as [-> | N1]; [column_case f "user_id"|].
  destruct (String.eqb_spec c "table_id") as [-> | N2]; [column_case f "table_id"|].
  destruct (String.eqb_spec c "booking_date") as [-> | N3]; [column_case f "booking_date"|].
  destruct (String.eqb_spec c "guest_count") as [-> | N4]; [column_case f "guest_count"|].
  destruct (String.eqb_spec c "id") as [-> | N5]; [column_case f "id"|].
  destruct (String.eqb_spec c "duration_minutes") as [-> | N6]; [column_case f "duration_minutes"|].
  destruct (String.eqb_spec c "status") as [-> | N7]; [column_case f "status"|].
  destruct (String.eqb_spec c "special_requests") as [-> | N8]; [column_case f "special_requests"|].
  destruct (String.eqb_spec c "created_at") as [-> | N9]; [column_case f "created_at"|].
  destruct (String.eqb_spec c "updated_at") as [-> | N10]; [column_case f "updated_at"|].
  now destruct (String.eqb c f).
Qed.

Lemma Booking_column_assign (c : string) (fs : list string) (e r : Booking.t) :
  column c (assign fs e r)
  = if existsb (String.eqb c) fs then column c e else column c r.
Proof.
  revert r. unfold assign. induction fs as [|f fs IH]; intros r; [reflexivity|].
  cbn [fold_left existsb]. rewrite IH, Booking_column_copy.
  destruct (String.eqb c f); [|reflexivity].
  now destruct (existsb (String.eqb c) fs).
Qed.

Lemma Booking_is_column_getattr (e : Booking.t) (f : string) :
  getattr e f <> None -> is_column (A := Booking.t) f = true.
Proof.
  cbn [getattr Booking_entity]. unfold Booking_getattr, is_column, field_names.
  cbn [map fields entity_class Booking_entity Booking_class field_name
       required with_default with_factory existsb].
  split_column f; cbn; congruence.
Qed.

Lemma Booking_collect_values_columns (e : Booking.t) (fs : list string) :
  collect_values e fs <> None -> forallb (is_column (A := Booking.t)) fs = true.
Proof.
  induction fs as [|f fs IH]; [reflexivity|].
  cbn [collect_values forallb]. intros Hc.
  destruct (getattr e f) eqn:G; [|congruence].
  destruct (collect_values e fs); [|congruence].
  rewrite IH by discriminate.
  rewrite (Booking_is_column_getattr e f); [reflexivity | congruence].
Qed.

(** What an UPDATE of a booking that returned a row has done. *)
Lemma Booking_update_ok (e : Booking.t) (fs : list string) (w w' : World)
      (b' : Booking.t) :
  update e (Some fs) w = (Ok b', w') ->
  exists booking_id B,
    Booking.id e = Some booking_id
    /\ stored_booking (store w) booking_id = Some B
    /\ b' = assign fs e B
    /\ store w'
       = with_bookings (updated_bookings e fs booking_id (booking (store w)))
                       (store w).
Proof.
  intros Hrun.
  destruct (Booking.id e) as [booking_id|] eqn:Hid;
    [|rewrite update_without_id in Hrun by exact Hid; discriminate].
  assert (Hacc : forallb (is_column (A := Booking.t)) fs = true
                 /\ fs <> [] /\ has_duplicate fs = false).
  { unfold update in Hrun.
    change (getattr e "id") with (Some (uuid_val (Booking.id e))) in Hrun.
    rewrite Hid in Hrun. cbn [uuid_val] in Hrun.
    destruct (collect_values e fs) eqn:Hc; [|discriminate].
    split; [apply (Booking_collect_values_columns e); congruence|].
    unfold bind, execute in Hrun.
    destruct fs as [|f fs']; [discriminate|]. cbn [orb] in Hrun.
    split; [discriminate|].
    destruct (has_duplicate (f :: fs')); [discriminate | reflexivity]. }
  destruct Hacc as [Hc [Hne Hd]].
  rewrite (Booking_update_run e fs booking_id w Hid Hc Hne Hd) in Hrun.
  exists booking_id.
  destruct (stored_booking (store w) booking_id) as [B|]; [|discriminate].
  exists B. injection Hrun as <- <-. repeat split.
Qed.

(** An [update_booking] that returned has gone through its persisting
    half, in a world with the same store and the same clock. *)
Lemma update_booking_ok (bk : Booking.t) (update_fields : option (list string))
      (chk : bool) (w w' : World) (b' : Booking.t) :
  update_booking bk update_fields chk w = (Ok b', w') ->
  exists w1,
    store w1 = store w /\ tick w1 = tick w /\ clock w1 = clock w
    /\ persist_update bk update_fields w1 = (Ok b', w').
Proof.
  destruct chk; [|intros Hrun; exists w; auto].
  destruct (Booking.id bk) as [booking_id|] eqn:Hid.
  - destruct (stored_booking (store w) booking_id) as [B|] eqn:Hs.
    + destruct (changed B bk) eqn:Hch.
      * rewrite (update_booking_changed bk B update_fields booking_id w Hid Hs Hch).
        rewrite check_table_availability_run.
        cbn [store sent with_trace].
        destruct (stored_table (store w) (Booking.table_id bk)) as [t|];
          [|discriminate].
        destruct (Table.is_available t); [|discriminate].
        destruct (first_conflict _ _ _) as [[|] reason]; [|discriminate].
        intros Hrun. eexists. split; [|split; [|split; [|exact Hrun]]];
          reflexivity.
      * rewrite (update_booking_unchanged bk B update_fields booking_id w Hid Hs Hch).
        intros Hrun. eexists. split; [|split; [|split; [|exact Hrun]]];
          reflexivity.
    + rewrite (update_booking_not_stored bk update_fields booking_id w Hid Hs).
      intros Hrun. eexists. split; [|split; [|split; [|exact Hrun]]];
        reflexivity.
  - rewrite (update_booking_no_id bk update_fields w Hid).
    intros Hrun. exists w. auto.
Qed.

(** X12.  An [update_booking] that returned has rewritten one stored
    booking, the one with the id of the booking it was given: the columns
    in the field list, and [updated_at] in any case, now hold the values of
    the given booking, [updated_at] being the time of the call; every other
    column keeps its stored value, whatever the given booking holds there.
    With no field list, [id] and [created_at] are the columns kept. *)
Theorem update_booking_writes_listed_fields
        (w w' : World) (bk b' : Booking.t)
        (update_fields : option (list string)) (chk : bool) :
  update_booking bk update_fields chk w = (Ok b', w') ->
  exists booking_id B,
    Booking.id bk = Some booking_id
    /\ stored_booking (store w) booking_id = Some B
    /\ stored_booking (store w') booking_id = Some b'
    /\ (forall c,
           column c b'
           = if existsb (String.eqb c) (sent_fields update_fields)
             then column c (Booking.set_updated_at (clock w (tick w)) bk)
             else column c B)
    /\ Booking.updated_at b' = clock w (tick w)
    /\ Booking.id b' = Booking.id B
    /\ (update_fields = None -> Booking.created_at b' = Booking.created_at B).
Proof.
  intros Hrun. apply update_booking_ok in Hrun.
  destruct Hrun as [w1 [Hst [Htk [Hck Hrun]]]].
  rewrite persist_update_eq, Htk, Hck in Hrun.
  apply Booking_update_ok in Hrun. cbn [store with_tick] in Hrun.
  destruct Hrun as [booking_id [B [Hid [Hs [Hb' Hst']]]]].
  rewrite Hst in Hs, Hst'. exists booking_id, B.
  split; [exact Hid|]. split; [exact Hs|].
  assert (Hcol : forall c,
             column c b'
             = if existsb (String.eqb c) (sent_fields update_fields)
               then column c (Booking.set_updated_at (clock w (tick w)) bk)
               else column c B).
  { intros c. rewrite Hb'. apply Booking_column_assign. }
  assert (Hupd : existsb (String.eqb "updated_at") (sent_fields update_fields)
                 = true).
  { destruct update_fields as [fs|]; [|reflexivity]. cbn [sent_fields].
    destruct (existsb (String.eqb "updated_at") fs) eqn:Hf; [exact Hf|].
    rewrite existsb_app, Hf. reflexivity. }
  split; [|split; [exact Hcol | split; [|split]]].
  - rewrite Hst', stored_booking_updated, Hs by exact Hid. now rewrite Hb'.
  - pose proof (Hcol "updated_at") as Hu. rewrite Hupd in Hu.
    cbn in Hu. now injection Hu.
  - destruct (stored_booking_Some _ _ _ Hs) as [_ HB]. rewrite Hb', HB.
    apply Booking_id_assign; assumption.
  - intros ->. pose proof (Hcol "created_at") as Hc. cbn in Hc.
    now injection Hc.
Qed.

Lemma update_booking_writes_listed_fields_witness :
  update_booking booking_101_shifted (Some ["status"]) true booked
  = (Ok (booking_101 "confirmed" 4),
     snd (update_booking booking_101_shifted (Some ["status"]) true booked))
  /\ exists booking_id B,
      stored_booking (store booked) booking_id = Some B
      /\ Booking.id (booking_101 "confirmed" 4) = Booking.id B.
Proof.
  assert (Hrun : update_booking booking_101_shifted (Some ["status"]) true booked
                 = (Ok (booking_101 "confirmed" 4),
                    snd (update_booking booking_101_shifted (Some ["status"])
                                        true booked)))
    by (vm_compute; reflexivity).
  split; [exact Hrun|].
  destruct (update_booking_writes_listed_fields _ _ _ _ _ _ Hrun)
    as [i [B [_ [Hs [_ [_ [_ [Hid _]]]]]]]].
  exists i, B. split; assumption.
Defined.

(* ------------------------------------------------------------------ *)
(** ** Keys that stay unique *)

Lemma NoDup_map_filter {A K} (key : A -> K) (p : A -> bool) (l : list A) :
  NoDup (map key l) -> NoDup (map key (filter p l)).
Proof.
  induction l as [|x l IH]; simpl; intros Hnd; [constructor|].
  inversion Hnd as [|k ks Hnot Hnd']; subst.
  destruct (p x); [|now apply IH].
  simpl. constructor; [|now apply IH].
  intros Hin. apply Hnot. apply in_map_iff in Hin.
  destruct Hin as [y [Hy Hyin]]. apply filter_In in Hyin.
  apply in_map_iff. exists y. tauto.
Qed.

Lemma NoDup_map_snoc {A K} (key : A -> K) (l : list A) (x : A) :
  NoDup (map key l) ->
  (forall y, In y l -> key y <> key x) ->
  NoDup (map key (l ++ [x])).
Proof.
  intros Hnd Hfresh. rewrite map_app. simpl.
  apply NoDup_app.
  - exact Hnd.
  - constructor; [intros [] | constructor].
  - intros k Hk [<- | []]. apply in_map_iff in Hk.
    destruct Hk as [y [Hy Hyin]]. exact (Hfresh y Hyin Hy).
Qed.

Lemma NoDup_map_injective {A K} (key : A -> K) (l : list A) (a b : A) :
  NoDup (map key l) -> In a l -> In b l -> key a = key b -> a = b.
Proof.
  induction l as [|x l IH]; simpl; intros Hnd Ha Hb Hk; [contradiction|].
  inversion Hnd as [|k ks Hnot Hnd']; subst.
  destruct Ha as [-> | Ha], Hb as [-> | Hb]; try reflexivity.
  - exfalso. apply Hnot. rewrite Hk. now apply in_map.
  - exfalso. apply Hnot. rewrite <- Hk. now apply in_map.
  - now apply IH.
Qed.

Lemma map_rewritten_same_key {A K} (key : A -> K) (p : A -> bool) (g : A -> A)
      (l : list A) :
  (forall r, In r l -> p r = true -> key (g r) = key r) ->
  map key (map (fun r => if p r then g r else r) l) = map key l.
Proof.
  intros Hg. rewrite map_map. apply map_ext_in. intros r Hr.
  destruct (p r) eqn:E; [now apply Hg | reflexivity].
Qed.

(** Rewriting the rows that match a unique id with a new key [k] keeps the
    keys without repetition when no other row holds [k]. *)
Lemma NoDup_map_rewritten {A K} (ident : A -> option UUID) (key : A -> K)
      (u : UUID) (g : A -> A) (k : K) (l : list A) :
  NoDup (map ident l) ->
  NoDup (map key l) ->
  (forall r, In r l -> ident r = Some u -> key (g r) = k) ->
  (forall r, In r l -> ident r <> Some u -> key r <> k) ->
  NoDup (map key (map (fun r => if option_uuid_eqb (ident r) (Some u)
                                then g r else r) l)).
Proof.
  induction l as [|x l IH]; simpl; intros Hid Hkey Hg Hother; [constructor|].
  inversion Hid as [|i ids Hinot Hid']; subst.
  inversion Hkey as [|k0 ks Hknot Hkey']; subst.
  destruct (option_uuid_eqb (ident x) (Some u)) eqn:E.
  - apply option_uuid_eqb_eq in E.
    assert (Hrest : forall r, In r l -> ident r <> Some u).
    { intros r Hr Heq. apply Hinot. rewrite E, <- Heq. now apply in_map. }
    assert (Hsame : map (fun r => if option_uuid_eqb (ident r) (Some u)
                                  then g r else r) l = l).
    { rewrite <- (map_id l) at 2. apply map_ext_in. intros r Hr.
      specialize (Hrest r Hr). apply option_uuid_eqb_neq in Hrest.
      now rewrite Hrest. }
    rewrite Hsame. constructor; [|exact Hkey'].
    rewrite (Hg x (or_introl eq_refl) E). intros Hin. apply in_map_iff in Hin.
    destruct Hin as [r [Hr Hrin]].
    exact (Hother r (or_intror Hrin) (Hrest r Hrin) Hr).
  - apply option_uuid_eqb_neq in E. constructor.
    + intros Hin. apply in_map_iff in Hin. destruct Hin as [y [Hy Hyin]].
      apply in_map_iff in Hyin. destruct Hyin as [r [Hr Hrin]]. subst y.
      destruct (option_uuid_eqb (ident r) (Some u)) eqn:Er.
      * apply option_uuid_eqb_eq in Er.
        rewrite (Hg r (or_intror Hrin) Er) in Hy.
        exact (Hother x (or_introl eq_refl) E (eq_sym Hy)).
      * apply Hknot. rewrite <- Hy. now apply in_map.
    + apply IH; auto.
Qed.

Lemma unique_ids_filter {A} (ident : A -> option UUID) (p : A -> bool)
      (l : list A) :
  unique_ids ident l -> unique_ids ident (filter p l).
Proof.
  intros [Hnd Hsome]. split; [now apply NoDup_map_filter|].
  intros r Hr. apply filter_In in Hr. now apply Hsome.
Qed.

Lemma unique_ids_snoc {A} (ident : A -> option UUID) (l : list A) (x : A)
      (u : UUID) :
  unique_ids ident l -> ident x = Some u ->
  (forall y, In y l -> ident y <> Some u) ->
  unique_ids ident (l ++ [x]).
Proof.
  intros [Hnd Hsome] Hx Hfresh. split.
  - apply NoDup_map_snoc; [exact Hnd|]. intros y Hy. rewrite Hx. now apply Hfresh.
  - intros r Hr. apply in_app_or in Hr. destruct Hr as [Hr | [<- | []]];
      [now apply Hsome | congruence].
Qed.

Lemma unique_ids_rewritten {A} (ident : A -> option UUID) (p : A -> bool)
      (g : A -> A) (l : list A) :
  unique_ids ident l ->
  (forall r, In r l -> p r = true -> ident (g r) = ident r) ->
  unique_ids ident (map (fun r => if p r then g r else r) l).
Proof.
  intros [Hnd Hsome] Hg. split.
  - now rewrite map_rewritten_same_key.
  - intros y Hy. apply in_map_iff in Hy. destruct Hy as [r [<- Hr]].
    destruct (p r) eqn:E; [rewrite (Hg r Hr E)|]; now apply Hsome.
Qed.

Section UpdateEffect.
Context {A : Type} `{Entity A}.

(** Whatever [update] answers, the store is as before or the rows with
    the entity's id were rewritten from the entity. *)
Lemma update_effect (entity : A) (update_fields : option (list string))
      (w : World) :
  store (snd (update entity update_fields w)) = store w
  \/ exists u,
      getattr entity "id" = Some (PUuid u)
      /\ store (snd (update entity update_fields w))
         = with_rows
             (map (fun r => if has_id u r
                            then assign (resolved_fields update_fields) entity r
                            else r)
                  (rows (store w)))
             (store w).
Proof.
  unfold update. fold (resolved_fields update_fields).
  destruct (getattr entity "id") as [[| | | |u|]|]; try (now left).
  destruct (collect_values entity (resolved_fields update_fields));
    [|now left].
  unfold bind, execute, get_store, put_store, ret.
  destruct ((match resolved_fields update_fields with
             | [] => true
             | _ :: _ => false
             end) || has_duplicate (resolved_fields update_fields));
    [now left|].
  right. exists u. split; [reflexivity|].
  cbn [store with_trace].
  destruct (find (has_id u) _); reflexivity.
Qed.

Lemma create_effect (entity : A) (w : World) :
  store (snd (create entity w)) = store w
  \/ exists u,
      getattr entity "id" = Some (PUuid u)
      /\ existsb (has_id u) (rows (store w)) = false
      /\ store (snd (create entity w))
         = with_rows (rows (store w) ++ [entity]) (store w).
Proof.
  unfold create, bind, execute, get_store, put_store, ret.
  destruct (getattr entity "id") as [[| | | |u|]|]; try (now left).
  cbn [store with_trace].
  destruct (existsb (has_id u) (rows (store w))) eqn:E; [now left|].
  right. exists u. auto.
Qed.

End UpdateEffect.

Lemma User_id_assign (fs : list string) (e r : User.t) (o : option UUID) :
  User.id e = o -> User.id r = o -> User.id (assign fs e r) = o.
Proof.
  intros He. revert r. unfold assign.
  induction fs as [|f fs IH]; simpl; intros r Hr; [exact Hr|].
  apply IH. cbn. destruct (String.eqb f "id"); assumption.
Qed.

Lemma User_name_assign (fs : list string) (e r : User.t) :
  User.name (assign fs e r)
  = if existsb (String.eqb "name") fs then User.name e else User.name r.
Proof.
  revert r. unfold assign. induction fs as [|f fs IH]; intros r; [reflexivity|].
  cbn [fold_left existsb]. rewrite IH. cbn [copy_attr User_entity].
  unfold User_copy_attr. cbn [User.name]. rewrite (String.eqb_sym f).
  destruct (String.eqb "name" f); [|reflexivity].
  now destruct (existsb (String.eqb "name") fs).
Qed.

Lemma Table_id_assign (fs : list string) (e r : Table.t) (o : option UUID) :
  Table.id e = o -> Table.id r = o -> Table.id (assign fs e r) = o.
Proof.
  intros He. revert r. unfold assign.
  induction fs as [|f fs IH]; simpl; intros r Hr; [exact Hr|].
  apply IH. cbn. destruct (String.eqb f "id"); assumption.
Qed.

Lemma Table_number_assign (fs : list string) (e r : Table.t) :
  Table.number (assign fs e r)
  = if existsb (String.eqb "number") fs then Table.number e else Table.number r.
Proof.
  revert r. unfold assign. induction fs as [|f fs IH]; intros r; [reflexivity|].
  cbn [fold_left existsb]. rewrite IH. cbn [copy_attr Table_entity].
  unfold Table_copy_attr. cbn [Table.number]. rewrite (String.eqb_sym f).
  destruct (String.eqb "number" f); [|reflexivity].
  now destruct (existsb (String.eqb "number") fs).
Qed.

Lemma entity_id_value (o : option UUID) (u : UUID) :
  Some (uuid_val o) = Some (PUuid u) -> o = Some u.
Proof. destruct o; cbn; congruence. Qed.

(** [update_user] as one equation: the name check, then the driver. *)
Lemma update_user_run (u : User.t) (update_fields : option (list string))
      (w : World) :
  update_user u update_fields w =
  if match update_fields with
     | Some fs => existsb (String.eqb "name") fs
     | None => true
     end
  then
    match stored_user (store w) (User.name u) with
    | Some ex =>
        if option_uuid_eqb (User.id ex) (User.id u)
        then update u update_fields (sent (select_user (User.name u)) w)
        else (Raise (ValueError (UserExists (User.name u))),
              sent (select_user (User.name u)) w)
    | None => update u update_fields (sent (select_user (User.name u)) w)
    end
  else update u update_fields w.
Proof.
  unfold update_user. unfold bind at 1.
  destruct (match update_fields with
            | Some fs => existsb (String.eqb "name") fs
            | None => true
            end); [|reflexivity].
  unfold bind at 1. rewrite get_user_by_name_run.
  destruct (stored_user (store w) (User.name u)) as [ex|]; [|reflexivity].
  destruct (option_uuid_eqb (User.id ex) (User.id u)); reflexivity.
Qed.

(** What [update_user] can do to the store, and what its name check has
    established when the name is written. *)
Lemma update_user_effect (u : User.t) (update_fields : option (list string))
      (w : World) :
  store (snd (update_user u update_fields w)) = store w
  \/ exists user_id,
      User.id u = Some user_id
      /\ store (snd (update_user u update_fields w))
         = mkDB (map (fun r => if option_uuid_eqb (User.id r) (Some user_id)
                               then assign (resolved_fields (A := User.t)
                                                            update_fields) u r
                               else r)
                     (user (store w)))
                (restaurant_table (store w)) (booking (store w))
      /\ (existsb (String.eqb "name")
                  (resolved_fields (A := User.t) update_fields) = true ->
          stored_user (store w) (User.name u) = None
          \/ exists ex, stored_user (store w) (User.name u) = Some ex
                        /\ User.id ex = Some user_id).
Proof.
  assert (Hupd : forall w1, store w1 = store w ->
            store (snd (update u update_fields w1)) = store w
            \/ exists user_id,
                User.id u = Some user_id
                /\ store (snd (update u update_fields w1))
                   = mkDB (map (fun r => if option_uuid_eqb (User.id r)
                                                            (Some user_id)
                                         then assign (resolved_fields
                                                        (A := User.t)
                                                        update_fields) u r
                                         else r)
                               (user (store w)))
                          (restaurant_table (store w)) (booking (store w))).
  { intros w1 Hst. destruct (update_effect u update_fields w1) as [Hs | [i [Hi Hs]]].
    - left. congruence.
    - right. exists i. split; [now apply entity_id_value|].
      rewrite Hs, Hst. cbn [with_rows rows User_entity]. f_equal.
      apply map_ext. intros r. now rewrite User_has_id. }
  rewrite update_user_run.
  destruct (match update_fields with
            | Some fs => existsb (String.eqb "name") fs
            | None => true
            end) eqn:Hguard.
  - destruct (stored_user (store w) (User.name u)) as [ex|] eqn:Hex.
    + destruct (option_uuid_eqb (User.id ex) (User.id u)) eqn:Hsame;
        [|now left].
      apply option_uuid_eqb_eq in Hsame.
      destruct (Hupd (sent (select_user (User.name u)) w) eq_refl)
        as [Hs | [i [Hi Hs]]]; [now left|].
      right. exists i. split; [exact Hi|]. split; [exact Hs|].
      intros _. right. exists ex. split; [reflexivity | congruence].
    + destruct (Hupd (sent (select_user (User.name u)) w) eq_refl)
        as [Hs | [i [Hi Hs]]]; [now left|].
      right. exists i. split; [exact Hi|]. split; [exact Hs|]. now left.
  - destruct (Hupd w eq_refl) as [Hs | [i [Hi Hs]]]; [now left|].
    right. exists i. split; [exact Hi|]. split; [exact Hs|].
    destruct update_fields as [fs|]; [|discriminate Hguard].
    cbn [resolved_fields]. congruence.
Qed.

Lemma stored_table_number_None (d : DB) (number : Z) :
  find (fun t => Table.number t =? number) (restaurant_table d) = None <->
  forall t, In t (restaurant_table d) -> Table.number t <> number.
Proof.
  rewrite find_none_iff.
  split; intros Hall t Ht; specialize (Hall t Ht); now apply Z.eqb_neq.
Qed.

Lemma update_table_run (t : Table.t) (update_fields : option (list string))
      (w : World) :
  update_table t update_fields w =
  let lookup := SELECT "restaurant_table" [("number", PInt (Table.number t))]
                       None (Some 1) in
  if match update_fields with
     | Some fs => existsb (String.eqb "number") fs
     | None => true
     end
  then
    match find (fun r => Table.number r =? Table.number t)
               (restaurant_table (store w)) with
    | Some ex =>
        if option_uuid_eqb (Table.id ex) (Table.id t)
        then update t update_fields (sent lookup w)
        else (Raise (ValueError (TableNumberExists (Table.number t))),
              sent lookup w)
    | None => update t update_fields (sent lookup w)
    end
  else update t update_fields w.
Proof.
  cbv zeta. unfold update_table. unfold bind at 1.
  destruct (match update_fields with
            | Some fs => existsb (String.eqb "number") fs
            | None => true
            end); [|reflexivity].
  unfold bind at 1. rewrite get_table_by_number_run.
  destruct (find _ (restaurant_table (store w))) as [ex|]; [|reflexivity].
  destruct (option_uuid_eqb (Table.id ex) (Table.id t)); reflexivity.
Qed.

Lemma update_table_effect (t : Table.t) (update_fields : option (list string))
      (w : World) :
  store (snd (update_table t update_fields w)) = store w
  \/ exists table_id,
      Table.id t = Some table_id
      /\ store (snd (update_table t update_fields w))
         = mkDB (user (store w))
                (map (fun r => if option_uuid_eqb (Table.id r) (Some table_id)
                               then assign (resolved_fields (A := Table.t)
                                                            update_fields) t r
                               else r)
                     (restaurant_table (store w)))
                (booking (store w))
      /\ (existsb (String.eqb "number")
                  (resolved_fields (A := Table.t) update_fields) = true ->
          find (fun r => Table.number r =? Table.number t)
               (restaurant_table (store w)) = None
          \/ exists ex, find (fun r => Table.number r =? Table.number t)
                             (restaurant_table (store w)) = Some ex
                        /\ Table.id ex = Some table_id).
Proof.
  assert (Hupd : forall w1, store w1 = store w ->
            store (snd (update t update_fields w1)) = store w
            \/ exists table_id,
                Table.id t = Some table_id
                /\ store (snd (update t update_fields w1))
                   = mkDB (user (store w))
                          (map (fun r => if option_uuid_eqb (Table.id r)
                                                            (Some table_id)
                                         then assign (resolved_fields
                                                        (A := Table.t)
                                                        update_fields) t r
                                         else r)
                               (restaurant_table (store w)))
                          (booking (store w))).
  { intros w1 Hst. destruct (update_effect t update_fields w1) as [Hs | [i [Hi Hs]]].
    - left. congruence.
    - right. exists i. split; [now apply entity_id_value|].
      rewrite Hs, Hst. cbn [with_rows rows Table_entity]. f_equal.
      apply map_ext. intros r. now rewrite Table_has_id. }
  rewrite update_table_run. cbv zeta.
  destruct (match update_fields with
            | Some fs => existsb (String.eqb "number") fs
            | None => true
            end) eqn:Hguard.
  - destruct (find _ (restaurant_table (store w))) as [ex|] eqn:Hex.
    + destruct (option_uuid_eqb (Table.id ex) (Table.id t)) eqn:Hsame;
        [|now left].
      apply option_uuid_eqb_eq in Hsame.
      destruct (Hupd (sent (SELECT "restaurant_table"
                                   [("number", PInt (Table.number t))]
                                   None (Some 1)) w) eq_refl)
        as [Hs | [i [Hi Hs]]]; [now left|].
      right. exists i. split; [exact Hi|]. split; [exact Hs|].
      intros _. right. exists ex. split; [reflexivity | congruence].
    + destruct (Hupd (sent (SELECT "restaurant_table"
                                   [("number", PInt (Table.number t))]
                                   None (Some 1)) w) eq_refl)
        as [Hs | [i [Hi Hs]]]; [now left|].
      right. exists i. split; [exact Hi|]. split; [exact Hs|]. now left.
  - destruct (Hupd w eq_refl) as [Hs | [i [Hi Hs]]]; [now left|].
    right. exists i. split; [exact Hi|]. split; [exact Hs|].
    destruct update_fields as [fs|]; [|discriminate Hguard].
    cbn [resolved_fields]. congruence.
Qed.

(* ------------------------------------------------------------------ *)
(** ** What each call can do to the store *)

Lemma create_user_effect (name phone email : string) (w : World) :
  store (snd (create_user name phone email w)) = store w
  \/ exists nu user_id,
      User.id nu = Some user_id /\ User.name nu = name
      /\ (forall y, In y (user (store w)) -> User.id y <> Some user_id)
      /\ (forall y, In y (user (store w)) -> User.name y <> name)
      /\ store (snd (create_user name phone email w))
         = mkDB (user (store w) ++ [nu]) (restaurant_table (store w))
                (booking (store w)).
Proof.
  rewrite create_user_run.
  destruct (stored_user (store w) name) eqn:Hname; [now left|].
  cbv zeta. destruct (existsb _ (user (store w))) eqn:Hid; [now left|].
  right. exists (new_user w name phone email), (uuid4_source w (tick w)).
  split; [reflexivity|]. split; [reflexivity|]. split; [|split; [|reflexivity]].
  - intros y Hy. apply option_uuid_eqb_neq.
    destruct (option_uuid_eqb (User.id y) _) eqn:E; [|reflexivity].
    assert (existsb (fun u => option_uuid_eqb (User.id u)
                                (Some (uuid4_source w (tick w))))
                    (user (store w)) = true)
      by (apply existsb_exists; eauto).
    congruence.
  - now apply stored_user_None_iff.
Qed.

Lemma create_table_effect (number capacity : Z) (location : string)
      (is_available : bool) (w : World) :
  store (snd (create_table number capacity location is_available w)) = store w
  \/ exists nt table_id,
      Table.id nt = Some table_id /\ Table.number nt = number
      /\ (forall y, In y (restaurant_table (store w)) ->
                    Table.id y <> Some table_id)
      /\ (forall y, In y (restaurant_table (store w)) ->
                    Table.number y <> number)
      /\ store (snd (create_table number capacity location is_available w))
         = mkDB (user (store w)) (restaurant_table (store w) ++ [nt])
                (booking (store w)).
Proof.
  rewrite create_table_run.
  destruct (find _ (restaurant_table (store w))) eqn:Hnum; [now left|].
  cbv zeta.
  destruct (stored_table (store w) (uuid4_source w (tick w))) eqn:Hid;
    [now left|].
  right.
  exists (Table.mk number capacity location (Some (uuid4_source w (tick w)))
                   is_available), (uuid4_source w (tick w)).
  split; [reflexivity|]. split; [reflexivity|].
  split; [now apply stored_table_None|].
  split; [now apply stored_table_number_None | reflexivity].
Qed.

Lemma create_booking_raised (user_id table_id : UUID) (S : datetime)
      (guest_count D : Z) (status special_requests : string) (chk : bool)
      (w w' : World) (e : exn) :
  create_booking user_id table_id S guest_count D status special_requests chk w
  = (Raise e, w') ->
  store w' = store w.
Proof.
  assert (Hins : forall w1, store w1 = store w ->
            insert_booking user_id table_id S guest_count D status
                           special_requests w1 = (Raise e, w') ->
            store w' = store w).
  { intros w1 Hst. rewrite insert_booking_run.
    destruct (stored_booking _ _); [|discriminate].
    intros Hrun. injection Hrun as _ <-. exact Hst. }
  destruct chk.
  - rewrite create_booking_checked, check_table_availability_run.
    destruct (stored_table (store w) table_id) as [t|].
    + destruct (Table.is_available t).
      * destruct (first_conflict _ _ _) as [[|] reason].
        -- apply Hins. reflexivity.
        -- intros Hrun. now injection Hrun as _ <-.
      * intros Hrun. now injection Hrun as _ <-.
    + intros Hrun. now injection Hrun as _ <-.
  - rewrite create_booking_unchecked. now apply Hins.
Qed.

(** A booking is appended, under a fresh id, or nothing is written. *)
Lemma create_booking_effect (user_id table_id : UUID) (S : datetime)
      (guest_count D : Z) (status special_requests : string) (chk : bool)
      (w : World) :
  store (snd (create_booking user_id table_id S guest_count D status
                             special_requests chk w)) = store w
  \/ exists nb booking_id,
      Booking.id nb = Some booking_id
      /\ Booking.table_id nb = table_id /\ Booking.booking_date nb = S
      /\ Booking.duration_minutes nb = D
      /\ (forall y, In y (booking (store w)) -> Booking.id y <> Some booking_id)
      /\ (chk = true ->
          forall b, In b (active_bookings_of (store w) table_id None) ->
                    intersects S (S + timedelta_minutes D) b = false)
      /\ store (snd (create_booking user_id table_id S guest_count D status
                                    special_requests chk w))
         = mkDB (user (store w)) (restaurant_table (store w))
                (booking (store w) ++ [nb]).
Proof.
  destruct (create_booking user_id table_id S guest_count D status
                           special_requests chk w) as [[nb|e] w'] eqn:Hrun.
  - right. apply create_booking_ok in Hrun.
    destruct Hrun as [w1 [Hst [Hnb [-> [Hfresh Hfree]]]]].
    exists nb, (uuid4_source w1 (tick w1)).
    split; [now rewrite Hnb|]. split; [now rewrite Hnb|].
    split; [now rewrite Hnb|]. split; [now rewrite Hnb|].
    split; [|split; [exact Hfree|]].
    + intros y Hy. specialize (Hfresh y Hy). now rewrite Hnb in Hfresh.
    + cbn [snd]. unfold after_insert_booking, with_bookings.
      cbn [store with_store]. now rewrite Hst.
  - left. now apply create_booking_raised in Hrun.
Qed.

(** The rows with one id are rewritten, or nothing is written. *)
Lemma update_booking_effect (bk : Booking.t)
      (update_fields : option (list string)) (chk : bool) (w : World) :
  store (snd (update_booking bk update_fields chk w)) = store w
  \/ exists booking_id e fs,
      Booking.id e = Some booking_id
      /\ store (snd (update_booking bk update_fields chk w))
         = mkDB (user (store w)) (restaurant_table (store w))
                (updated_bookings e fs booking_id (booking (store w))).
Proof.
  assert (Hpersist : forall w1, store w1 = store w ->
            store (snd (persist_update bk update_fields w1)) = store w
            \/ exists booking_id e fs,
                Booking.id e = Some booking_id
                /\ store (snd (persist_update bk update_fields w1))
                   = mkDB (user (store w)) (restaurant_table (store w))
                          (updated_bookings e fs booking_id (booking (store w)))).
  { intros w1 Hst. rewrite persist_update_eq.
    destruct (update_effect (Booking.set_updated_at (clock w1 (tick w1)) bk)
                (Some (sent_fields update_fields)) (with_tick (S (tick w1)) w1))
      as [Hs | [i [Hi Hs]]].
    - left. rewrite Hs. exact Hst.
    - right. exists i, (Booking.set_updated_at (clock w1 (tick w1)) bk),
        (sent_fields update_fields).
      split; [now apply entity_id_value|].
      rewrite Hs. cbn [store with_tick]. rewrite Hst.
      cbn [with_rows rows Booking_entity]. f_equal.
      unfold updated_bookings. apply map_ext. intros r.
      now rewrite Booking_has_id. }
  destruct chk; [|now apply Hpersist].
  destruct (Booking.id bk) as [booking_id|] eqn:Hid.
  - destruct (stored_booking (store w) booking_id) as [B|] eqn:Hs.
    + destruct (changed B bk) eqn:Hch.
      * rewrite (update_booking_changed bk B update_fields booking_id w Hid Hs Hch).
        pose proof (check_table_availability_store (Booking.table_id bk)
                      (Booking.booking_date bk) (Booking.duration_minutes bk)
                      (Some booking_id) (sent (select_booking booking_id) w))
          as [Hst _].
        destruct (check_table_availability _ _ _ _ _)
          as [[[[|] reason]|e] w1]; cbn [snd] in Hst.
        -- now apply Hpersist.
        -- now left.
        -- now left.
      * rewrite (update_booking_unchanged bk B update_fields booking_id w Hid Hs Hch).
        now apply Hpersist.
    + rewrite (update_booking_not_stored bk update_fields booking_id w Hid Hs).
      now apply Hpersist.
  - rewrite (update_booking_no_id bk update_fields w Hid). now apply Hpersist.
Qed.

Lemma status_update_effect (s : string) (booking_id : UUID) (w : World)
      (c : M (option Booking.t)) :
  c = (bk <- get_booking_by_id booking_id ;;
       match bk with
       | Some bk =>
           b <- update_booking (Booking.set_status s bk) (Some ["status"]) true ;;
           ret (Some b)
       | None => ret None
       end) ->
  store (snd (c w)) = store w
  \/ exists now,
      store (snd (c w))
      = mkDB (user (store w)) (restaurant_table (store w))
             (status_set s now booking_id (booking (store w))).
Proof.
  intros ->. destruct (stored_booking (store w) booking_id) as [B|] eqn:Hs.
  - right. rewrite (status_update_run s booking_id B w Hs).
    exists (clock w (tick w)). reflexivity.
  - left. unfold bind at 1. now rewrite get_booking_by_id_run, Hs.
Qed.

Lemma Booking_updated_ids (e : Booking.t) (fs : list string) (booking_id : UUID)
      (l : list Booking.t) :
  Booking.id e = Some booking_id ->
  unique_ids Booking.id l ->
  unique_ids Booking.id (updated_bookings e fs booking_id l).
Proof.
  intros He Hu. unfold updated_bookings. apply unique_ids_rewritten; [exact Hu|].
  intros r _ Hr. apply option_uuid_eqb_eq in Hr. rewrite Hr.
  now apply Booking_id_assign.
Qed.

Lemma Booking_status_set_ids (s : string) (now : datetime) (booking_id : UUID)
      (l : list Booking.t) :
  unique_ids Booking.id l ->
  unique_ids Booking.id (status_set s now booking_id l).
Proof.
  intros Hu. unfold status_set. apply unique_ids_rewritten; [exact Hu|].
  reflexivity.
Qed.

(* ------------------------------------------------------------------ *)
(** ** Keys stay unique along every run *)

Lemma update_user_keeps_names (u : User.t) (fs : list string) (user_id : UUID)
      (l : list User.t) :
  User.id u = Some user_id ->
  unique_ids User.id l ->
  NoDup (map User.name l) ->
  (existsb (String.eqb "name") fs = true ->
   find (fun x => String.eqb (User.name x) (User.name u)) l = None
   \/ exists ex, find (fun x => String.eqb (User.name x) (User.name u)) l = Some ex
                 /\ User.id ex = Some user_id) ->
  NoDup (map User.name
             (map (fun r => if option_uuid_eqb (User.id r) (Some user_id)
                            then assign fs u r else r) l)).
Proof.
  intros Hu [Hids _] Hnames Hcheck.
  destruct (existsb (String.eqb "name") fs) eqn:Hw.
  - apply (NoDup_map_rewritten User.id User.name user_id (assign fs u)
             (User.name u)); try assumption.
    + intros r _ _. now rewrite User_name_assign, Hw.
    + intros r Hr Hne Hname. destruct (Hcheck eq_refl) as [Hnone | [ex [Hex Hid]]].
      * apply (find_none _ _ Hnone) in Hr. apply String.eqb_neq in Hr.
        contradiction.
      * apply find_some in Hex. destruct Hex as [Hexin Hexname].
        apply String.eqb_eq in Hexname.
        assert (r = ex)
          by (apply (NoDup_map_injective User.name l); congruence).
        congruence.
  - rewrite map_rewritten_same_key; [exact Hnames|].
    intros r _ _. now rewrite User_name_assign, Hw.
Qed.

Lemma update_table_keeps_numbers (t : Table.t) (fs : list string)
      (table_id : UUID) (l : list Table.t) :
  Table.id t = Some table_id ->
  unique_ids Table.id l ->
  NoDup (map Table.number l) ->
  (existsb (String.eqb "number") fs = true ->
   find (fun x => Table.number x =? Table.number t) l = None
   \/ exists ex, find (fun x => Table.number x =? Table.number t) l = Some ex
                 /\ Table.id ex = Some table_id) ->
  NoDup (map Table.number
             (map (fun r => if option_uuid_eqb (Table.id r) (Some table_id)
                            then assign fs t r else r) l)).
Proof.
  intros Ht [Hids _] Hnumbers Hcheck.
  destruct (existsb (String.eqb "number") fs) eqn:Hw.
  - apply (NoDup_map_rewritten Table.id Table.number table_id (assign fs t)
             (Table.number t)); try assumption.
    + intros r _ _. now rewrite Table_number_assign, Hw.
    + intros r Hr Hne Hnum. destruct (Hcheck eq_refl) as [Hnone | [ex [Hex Hid]]].
      * apply (find_none _ _ Hnone) in Hr. apply Z.eqb_neq in Hr. contradiction.
      * apply find_some in Hex. destruct Hex as [Hexin Hexnum].
        apply Z.eqb_eq in Hexnum.
        assert (r = ex)
          by (apply (NoDup_map_injective Table.number l); congruence).
        congruence.
  - rewrite map_rewritten_same_key; [exact Hnumbers|].
    intros r _ _. now rewrite Table_number_assign, Hw.
Qed.

Lemma call_keeps_integrity (c : Call) (w : World) :
  integrity (store w) -> integrity (store (call c w)).
Proof.
  intros Hint. pose proof Hint as [HU [HT [HB [HN HM]]]].
  destruct c; cbn [call].
  - destruct (create_user_effect name phone email w)
      as [-> | [nu [i [Hid [Hname [Hfid [Hfname ->]]]]]]]; [exact Hint|].
    repeat split; cbn [user restaurant_table booking]; try (apply HT || apply HB);
      try assumption.
    + now apply (unique_ids_snoc User.id _ _ i).
    + apply (unique_ids_snoc User.id _ _ i); assumption.
    + apply NoDup_map_snoc; [exact HN|]. intros y Hy. rewrite Hname.
      now apply Hfname.
  - destruct (update_user_effect u update_fields w)
      as [-> | [i [Hid [-> Hcheck]]]]; [exact Hint|].
    assert (Hids : unique_ids User.id
                     (map (fun r => if option_uuid_eqb (User.id r) (Some i)
                                    then assign (resolved_fields (A := User.t)
                                                   update_fields) u r
                                    else r) (user (store w)))).
    { apply unique_ids_rewritten; [exact HU|]. intros r _ Hr.
      apply option_uuid_eqb_eq in Hr. rewrite Hr. now apply User_id_assign. }
    split; [exact Hids|]. split; [exact HT|]. split; [exact HB|].
    split; [|exact HM]. cbn [user].
    now apply update_user_keeps_names.
  - unfold delete_user. rewrite delete_run. cbn [snd store with_store].
    split; [now apply unique_ids_filter|]. split; [exact HT|].
    split; [exact HB|]. split; [now apply NoDup_map_filter | exact HM].
  - destruct (create_table_effect number capacity location is_available w)
      as [-> | [nt [i [Hid [Hnum [Hfid [Hfnum ->]]]]]]]; [exact Hint|].
    split; [exact HU|]. split; [now apply (unique_ids_snoc Table.id _ _ i)|].
    split; [exact HB|]. split; [exact HN|]. cbn [restaurant_table].
    apply NoDup_map_snoc; [exact HM|]. intros y Hy. rewrite Hnum.
    now apply Hfnum.
  - destruct (update_table_effect t update_fields w)
      as [-> | [i [Hid [-> Hcheck]]]]; [exact Hint|].
    assert (Hids : unique_ids Table.id
                     (map (fun r => if option_uuid_eqb (Table.id r) (Some i)
                                    then assign (resolved_fields (A := Table.t)
                                                   update_fields) t r
                                    else r) (restaurant_table (store w)))).
    { apply unique_ids_rewritten; [exact HT|]. intros r _ Hr.
      apply option_uuid_eqb_eq in Hr. rewrite Hr. now apply Table_id_assign. }
    split; [exact HU|]. split; [exact Hids|]. split; [exact HB|].
    split; [exact HN|]. cbn [restaurant_table].
    now apply update_table_keeps_numbers.
  - unfold delete_table. rewrite delete_run. cbn [snd store with_store].
    split; [exact HU|]. split; [now apply unique_ids_filter|].
    split; [exact HB|]. split; [exact HN | now apply NoDup_map_filter].
  - destruct (create_booking_effect user_id table_id booking_date guest_count
                duration_minutes status special_requests check_availability w)
      as [-> | [nb [i [Hid [_ [_ [_ [Hfid [_ ->]]]]]]]]]; [exact Hint|].
    split; [exact HU|]. split; [exact HT|].
    split; [now apply (unique_ids_snoc Booking.id _ _ i)|].
    split; [exact HN | exact HM].
  - destruct (update_booking_effect b update_fields check_availability w)
      as [-> | [i [e [fs [Hid ->]]]]]; [exact Hint|].
    split; [exact HU|]. split; [exact HT|].
    split; [now apply Booking_updated_ids|]. split; [exact HN | exact HM].
  - unfold delete_booking. rewrite delete_run. cbn [snd store with_store].
    split; [exact HU|]. split; [exact HT|].
    split; [now apply unique_ids_filter|]. split; [exact HN | exact HM].
  - destruct (status_update_effect "confirmed" booking_id w
                (confirm_booking booking_id) eq_refl) as [-> | [now ->]];
      [exact Hint|].
    split; [exact HU|]. split; [exact HT|].
    split; [now apply Booking_status_set_ids|]. split; [exact HN | exact HM].
  - destruct (status_update_effect "cancelled" booking_id w
                (cancel_booking booking_id) eq_refl) as [-> | [now ->]];
      [exact Hint|].
    split; [exact HU|]. split; [exact HT|].
    split; [now apply Booking_status_set_ids|]. split; [exact HN | exact HM].
Qed.



(* ------------------------------------------------------------------ *)
(** ** No double booking along guarded runs *)

Lemma no_double_booking_same_bookings (d d' : DB) :
  booking d' = booking d -> no_double_booking d -> no_double_booking d'.
Proof. unfold no_double_booking. intros ->. auto. Qed.

Lemma no_double_booking_subset (d d' : DB) :
  (forall b, In b (booking d') -> In b (booking d)) ->
  no_double_booking d -> no_double_booking d'.
Proof. unfold no_double_booking. intros Hsub Hd a b Ha Hb. apply Hd; auto. Qed.

Lemma update_store_other_table {A} `{Entity A} (entity : A)
      (update_fields : option (list string)) (w : World) :
  (forall l d, booking (with_rows l d) = booking d) ->
  booking (store (snd (update entity update_fields w))) = booking (store w).
Proof.
  intros Hframe. destruct (update_effect entity update_fields w)
    as [-> | [u [_ ->]]]; [reflexivity | apply Hframe].
Qed.

(** The calls on users and tables leave the bookings alone. *)
Lemma call_on_other_tables (c : Call) (w : World) :
  match c with
  | CreateUser _ _ _ | UpdateUser _ _ | DeleteUser _
  | CreateTable _ _ _ _ | UpdateTable _ _ | DeleteTable _ =>
      booking (store (call c w)) = booking (store w)
  | _ => True
  end.
Proof.
  destruct c; cbn [call]; try exact I.
  - destruct (create_user_effect name phone email w)
      as [-> | [nu [i [_ [_ [_ [_ ->]]]]]]]; reflexivity.
  - destruct (update_user_effect u update_fields w)
      as [-> | [i [_ [-> _]]]]; reflexivity.
  - unfold delete_user. now rewrite delete_run.
  - destruct (create_table_effect number capacity location is_available w)
      as [-> | [nt [i [_ [_ [_ [_ ->]]]]]]]; reflexivity.
  - destruct (update_table_effect t update_fields w)
      as [-> | [i [_ [-> _]]]]; reflexivity.
  - unfold delete_table. now rewrite delete_run.
Qed.

Lemma call_keeps_schedule (c : Call) (w : World) :
  guarded c = true ->
  unique_ids Booking.id (booking (store w)) ->
  no_double_booking (store w) ->
  no_double_booking (store (call c w)).
Proof.
  intros Hg [_ Hsome] Hfree.
  pose proof (call_on_other_tables c w) as Hother.
  destruct c; cbn [guarded] in Hg; try discriminate Hg;
    try (now apply (no_double_booking_same_bookings (store w))).
  - cbn [call]. subst check_availability.
    destruct (create_booking_effect user_id table_id booking_date guest_count
                duration_minutes status special_requests true w)
      as [-> | [nb [i [Hid [Htab [Hdate [Hdur [Hfid [Hchk ->]]]]]]]]];
      [exact Hfree|].
    assert (Hnew : forall a, In a (booking (store w)) ->
                             Booking.table_id a = Booking.table_id nb ->
                             is_active a = true ->
                             ~ overlap a nb /\ ~ overlap nb a).
    { intros a Ha Hta Hact.
      assert (Hcand : In a (active_bookings_of (store w) table_id None)).
      { apply in_active_bookings_of. repeat split; try assumption;
          [congruence | now apply Hsome]. }
      apply (Hchk eq_refl) in Hcand.
      assert (Hno : ~ (booking_date < existing_end a
                       /\ Booking.booking_date a
                          < booking_date + timedelta_minutes duration_minutes)).
      { intros Hi. apply intersects_iff in Hi. congruence. }
      unfold overlap, existing_end in *. rewrite Hdate, Hdur. lia. }
    intros a b Ha Hb Hne Htab' Hacta Hactb. cbn [booking] in Ha, Hb.
    apply in_app_or in Ha. apply in_app_or in Hb.
    destruct Ha as [Ha | [<- | []]], Hb as [Hb | [<- | []]].
    + now apply Hfree.
    + now apply (Hnew a Ha Htab' Hacta).
    + now apply (Hnew b Hb (eq_sym Htab') Hactb).
    + now elim Hne.
  - cbn [call]. unfold delete_booking. rewrite delete_run.
    apply (no_double_booking_subset (store w)); [|exact Hfree].
    intros b Hb. cbn [snd store with_store] in Hb.
    change (booking (with_rows ?l ?d)) with l in Hb.
    now apply filter_In in Hb.
  - cbn [call].
    destruct (status_update_effect "cancelled" booking_id w
                (cancel_booking booking_id) eq_refl) as [-> | [now ->]];
      [exact Hfree|].
    intros a b Ha Hb Hne Htab Hacta Hactb. cbn [booking] in Ha, Hb.
    apply in_status_set in Ha. apply in_status_set in Hb.
    destruct Ha as [x [Hx [[_ ->] | [_ ->]]]]; [discriminate Hacta|].
    destruct Hb as [y [Hy [[_ ->] | [_ ->]]]]; [discriminate Hactb|].
    now apply Hfree.
Qed.

(** X14.  Along every run made of guarded calls - any call but a creation
    with the check off, an update of a booking and a confirmation - no two
    active bookings of one table come to overlap: if the stored booking ids
    are unique and no two active bookings of a table overlap before the
    run, none do after it. *)
Theorem guarded_runs_never_double_book (calls : list Call) (w : World) :
  forallb guarded calls = true ->
  integrity (store w) ->
  no_double_booking (store w) ->
  no_double_booking (store (run calls w)).
Proof.
  revert w. induction calls as [|c calls IH]; intros w Hg Hint Hfree;
    [exact Hfree|].
  cbn [forallb] in Hg. apply andb_true_iff in Hg. destruct Hg as [Hc Hcs].
  cbn [run fold_left]. apply IH; [exact Hcs | now apply call_keeps_integrity|].
  apply call_keeps_schedule; [exact Hc | apply Hint | exact Hfree].
Qed.

Lemma guarded_runs_never_double_book_witness :
  integrity (store empty_world)
  /\ no_double_booking (store empty_world)
  /\ no_double_booking
       (store (run [CreateTable 1 2 "window" true;
                    CreateBooking 1%N 100%N 0 2 120 "confirmed" "" true;
                    CreateBooking 1%N 100%N (timedelta_minutes 30) 2 60
                                  "pending" "" true;
                    CancelBooking 101%N;
                    CreateBooking 1%N 100%N (timedelta_minutes 30) 2 60
                                  "pending" "" true]
                   empty_world)).
Proof.
  assert (Hempty : integrity (store empty_world)).
  { repeat split; cbn; try constructor; intros r []. }
  assert (Hfree : no_double_booking (store empty_world)).
  { intros a b []. }
  split; [exact Hempty|]. split; [exact Hfree|].
  now apply guarded_runs_never_double_book.
Defined.

(** X15.  [confirm_booking] makes no availability check: on a stored
    booking it succeeds also when another active booking of the same table
    overlaps it, and afterwards both are stored and active, so that the
    table is double booked. *)
Theorem confirm_booking_can_double_book
        (w : World) (booking_id : UUID) (B other : Booking.t) :
  stored_booking (store w) booking_id = Some B ->
  In other (booking (store w)) ->
  Booking.id other <> Some booking_id ->
  Booking.table_id other = Booking.table_id B ->
  is_active other = true ->
  overlap B other ->
  exists b' w',
    confirm_booking booking_id w = (Ok (Some b'), w')
    /\ In b' (booking (store w')) /\ In other (booking (store w'))
    /\ Booking.id b' = Some booking_id
    /\ is_active b' = true
    /\ overlap b' other
    /\ ~ no_double_booking (store w').
Proof.
  intros Hs Hin Hne Htab Hact Hov.
  destruct (stored_booking_Some _ _ _ Hs) as [HBin HBid].
  rewrite (confirm_booking_run booking_id B w Hs).
  set (b' := restamp "confirmed" (clock w (tick w)) B).
  exists b', (after_status_set "confirmed" booking_id B w).
  assert (Hb' : In b' (booking (store (after_status_set "confirmed" booking_id
                                                        B w)))).
  { unfold after_status_set. cbn [store with_store with_bookings booking].
    apply in_status_set. exists B. auto. }
  assert (Ho : In other (booking (store (after_status_set "confirmed" booking_id
                                                          B w)))).
  { unfold after_status_set. cbn [store with_store with_bookings booking].
    apply in_status_set. exists other. auto. }
  split; [reflexivity|]. split; [exact Hb'|]. split; [exact Ho|].
  split; [exact HBid|]. split; [reflexivity|]. split; [exact Hov|].
  intros Hfree. apply (Hfree b' other Hb' Ho); try assumption.
  - cbn. congruence.
  - cbn. congruence.
  - reflexivity.
Qed.

Lemma confirm_booking_can_double_book_witness :
  rebooked
  = run [CancelBooking 101%N;
         CreateBooking 2%N 100%N (timedelta_minutes 30) 2 60 "pending" "" true]
        booked
  /\ stored_booking (store rebooked) 101%N = Some (booking_101 "cancelled" 4)
  /\ no_double_booking (store rebooked)
  /\ ~ no_double_booking (store (snd (confirm_booking 101%N rebooked))).
Proof.
  split; [vm_compute; reflexivity|].
  split; [reflexivity|]. split.
  - intros a b [<- | [<- | []]] [<- | [<- | []]] Hne _ Ha Hb;
      try discriminate; now elim Hne.
  - destruct (confirm_booking_can_double_book
                rebooked 101%N (booking_101 "cancelled" 4)
                (Booking.mk 2%N 100%N (timedelta_minutes 30) 2 (Some 105%N) 60
                            "pending" "" 6 7) eq_refl)
      as [b' [w' [Hrun [_ [_ [_ [_ [_ Hdouble]]]]]]]].
    + right. left. reflexivity.
    + discriminate.
    + reflexivity.
    + reflexivity.
    + unfold overlap, existing_end, timedelta_minutes. cbn. lia.
    + now rewrite Hrun.
Defined.

(* ------------------------------------------------------------------ *)
(** ** The conflict that is reported *)

Lemma first_conflict_split (S E : datetime) (l : list Booking.t) (b : Booking.t) :
  first_conflict S E l = (false, Some (AlreadyBooked b)) ->
  exists l1 l2,
    l = (l1 ++ b :: l2)%list
    /\ (forall x, In x l1 -> intersects S E x = false)
    /\ intersects S E b = true.
Proof.
  induction l as [|x l IH]; simpl; [discriminate|].
  destruct (intersects S E x) eqn:Hx.
  - intros Heq. injection Heq as ->. exists [], l. repeat split; auto.
    intros y [].
  - intros Heq. destruct (IH Heq) as [l1 [l2 [-> [Hl1 Hb]]]].
    exists (x :: l1), l2. repeat split; auto.
    intros y [<- | Hy]; auto.
Qed.

Lemma strongly_sorted_after {A} (R : A -> A -> Prop) (l1 l2 : list A) (b c : A) :
  StronglySorted R (l1 ++ b :: l2) -> In c l2 -> R b c.
Proof.
  induction l1 as [|x l1 IH]; simpl; intros Hs Hc.
  - apply StronglySorted_inv in Hs. destruct Hs as [_ Hall].
    rewrite Forall_forall in Hall. now apply Hall.
  - apply StronglySorted_inv in Hs. destruct Hs as [Hs _]. now apply IH.
Qed.

Lemma active_bookings_sorted (d : DB) (table_id : UUID) (ex : option UUID) :
  StronglySorted by_date (active_bookings_of d table_id ex).
Proof.
  unfold active_bookings_of. apply filter_strongly_sorted.
  apply sorted_by_booking_date.
Qed.

(** X16.  When [check_table_availability] refuses a request on a stored
    table whose flag is on, the reason names a booking of that table that
    is active, is not the excluded one and overlaps the request, and no
    other such booking starts earlier than it. *)
Theorem reported_conflict_is_the_earliest
        (w w' : World) (table_id : UUID) (table : Table.t) (S D : Z)
        (exclude_booking_id : option UUID) (reason : option Reason) :
  stored_table (store w) table_id = Some table ->
  Table.is_available table = true ->
  check_table_availability table_id S D exclude_booking_id w
  = (Ok (false, reason), w') ->
  let E := S + timedelta_minutes D in
  let conflicting b :=
    In b (booking (store w)) /\ Booking.table_id b = table_id
    /\ is_active b = true /\ Booking.id b <> exclude_booking_id
    /\ S < existing_end b /\ Booking.booking_date b < E in
  exists b,
    reason = Some (AlreadyBooked b)
    /\ conflicting b
    /\ forall c, conflicting c ->
                 Booking.booking_date b <= Booking.booking_date c.
Proof.
  intros Ht Ha Hrun E conflicting.
  rewrite (check_available_table _ _ _ _ _ _ Ht Ha) in Hrun. fold E in Hrun.
  injection Hrun as Hfc _.
  destruct (first_conflict_shape S E
              (active_bookings_of (store w) table_id exclude_booking_id))
    as [Hfree | [b [Hin [Hi Hb]]]]; [congruence|].
  exists b. split; [congruence|].
  assert (Hcb : conflicting b).
  { apply in_active_bookings_of in Hin. apply intersects_iff in Hi.
    unfold conflicting. tauto. }
  split; [exact Hcb|].
  intros c [Hcin [Hct [Hcact [Hcid Hcov]]]].
  destruct (first_conflict_split _ _ _ _ Hb) as [l1 [l2 [Hl [Hl1 _]]]].
  assert (Hc : In c (active_bookings_of (store w) table_id exclude_booking_id))
    by (apply in_active_bookings_of; tauto).
  pose proof (active_bookings_sorted (store w) table_id exclude_booking_id)
    as Hsorted.
  rewrite Hl in Hc, Hsorted. apply in_app_or in Hc.
  destruct Hc as [Hc | [<- | Hc]].
  - apply Hl1 in Hc. assert (intersects S E c = true)
      by now apply intersects_iff.
    congruence.
  - lia.
  - exact (strongly_sorted_after by_date l1 l2 b c Hsorted Hc).
Qed.

Lemma reported_conflict_is_the_earliest_witness :
  stored_table (store booked) 100%N
  = Some (Table.mk 1 2 "window" (Some 100%N) true)
  /\ check_table_availability 100%N (timedelta_minutes 30) 60 None booked
     = (Ok (false, Some (AlreadyBooked (booking_101 "confirmed" 3))),
        snd (check_table_availability 100%N (timedelta_minutes 30) 60 None booked))
  /\ exists b, Some (AlreadyBooked (booking_101 "confirmed" 3))
               = Some (AlreadyBooked b)
               /\ In b (booking (store booked)).
Proof.
  assert (Hrun : check_table_availability 100%N (timedelta_minutes 30) 60 None
                                          booked
                 = (Ok (false, Some (AlreadyBooked (booking_101 "confirmed" 3))),
                    snd (check_table_availability 100%N (timedelta_minutes 30)
                                                  60 None booked)))
    by reflexivity.
  split; [reflexivity|]. split; [exact Hrun|].
  destruct (reported_conflict_is_the_earliest booked _ 100%N _ _ _ None _
              eq_refl eq_refl Hrun) as [b [Hb [[Hin _] _]]].
  exists b. split; assumption.
Defined.

(* ------------------------------------------------------------------ *)
(** ** Renaming and renumbering *)

(** X17.  [update_user] that writes the name (no field list, or one that
    contains [name]) is refused with the uniqueness error, after the one
    lookup and without writing, when the name it carries belongs to a
    stored user with another id; [update_table] does the same for the
    number.  When the name, respectively the number, is not written, no
    lookup is made and the call is the driver's [update]. *)
Theorem update_refuses_a_taken_key (w : World) :
  (forall u update_fields x,
      NoDup (map User.name (user (store w))) ->
      In x (user (store w)) -> User.name x = User.name u ->
      User.id x <> User.id u ->
      update_fields = None
      \/ (exists fs, update_fields = Some fs
                     /\ existsb (String.eqb "name") fs = true) ->
      update_user u update_fields w
      = (Raise (ValueError (UserExists (User.name u))),
         sent (select_user (User.name u)) w))
  /\ (forall t update_fields x,
         NoDup (map Table.number (restaurant_table (store w))) ->
         In x (restaurant_table (store w)) -> Table.number x = Table.number t ->
         Table.id x <> Table.id t ->
         update_fields = None
         \/ (exists fs, update_fields = Some fs
                        /\ existsb (String.eqb "number") fs = true) ->
         update_table t update_fields w
         = (Raise (ValueError (TableNumberExists (Table.number t))),
            sent (SELECT "restaurant_table" [("number", PInt (Table.number t))]
                         None (Some 1)) w))
  /\ (forall u fs, existsb (String.eqb "name") fs = false ->
                   update_user u (Some fs) w = update u (Some fs) w)
  /\ (forall t fs, existsb (String.eqb "number") fs = false ->
                   update_table t (Some fs) w = update t (Some fs) w).
Proof.
  split; [|split; [|split]].
  - intros u update_fields x Hnd Hx Hname Hid Hwritten. rewrite update_user_run.
    replace (match update_fields with
             | Some fs => existsb (String.eqb "name") fs
             | None => true
             end) with true
      by (destruct Hwritten as [-> | [fs [-> Hfs]]]; [reflexivity | now rewrite Hfs]).
    destruct (stored_user (store w) (User.name u)) as [ex|] eqn:Hex.
    + unfold stored_user in Hex. apply find_some in Hex.
      destruct Hex as [Hexin Hexname]. apply String.eqb_eq in Hexname.
      assert (x = ex)
        by (apply (NoDup_map_injective User.name (user (store w))); congruence).
      subst ex. apply option_uuid_eqb_neq in Hid. now rewrite Hid.
    + rewrite stored_user_None_iff in Hex. now elim (Hex x Hx).
  - intros t update_fields x Hnd Hx Hnum Hid Hwritten. rewrite update_table_run.
    cbv zeta.
    replace (match update_fields with
             | Some fs => existsb (String.eqb "number") fs
             | None => true
             end) with true
      by (destruct Hwritten as [-> | [fs [-> Hfs]]]; [reflexivity | now rewrite Hfs]).
    destruct (find _ (restaurant_table (store w))) as [ex|] eqn:Hex.
    + apply find_some in Hex. destruct Hex as [Hexin Hexnum].
      apply Z.eqb_eq in Hexnum.
      assert (x = ex)
        by (apply (NoDup_map_injective Table.number (restaurant_table (store w)));
            congruence).
      subst ex. apply option_uuid_eqb_neq in Hid. now rewrite Hid.
    + rewrite stored_table_number_None in Hex. now elim (Hex x Hx).
  - intros u fs Hfs. rewrite update_user_run. now rewrite Hfs.
  - intros t fs Hfs. rewrite update_table_run. cbv zeta. now rewrite Hfs.
Qed.

Lemma update_refuses_a_taken_key_witness :
  NoDup (map Table.number (restaurant_table (store opened)))
  /\ update_table (Table.mk 1 4 "corner" (Some 7%N) true) None opened
     = (Raise (ValueError (TableNumberExists 1)),
        sent (SELECT "restaurant_table" [("number", PInt 1)] None (Some 1))
             opened).
Proof.
  assert (Hnd : NoDup (map Table.number (restaurant_table (store opened)))).
  { cbn. constructor; [intros [] | constructor]. }
  split; [exact Hnd|].
  destruct (update_refuses_a_taken_key opened) as [_ [Htab _]].
  apply (Htab (Table.mk 1 4 "corner" (Some 7%N) true) None
              (Table.mk 1 2 "window" (Some 100%N) true) Hnd).
  - left. reflexivity.
  - reflexivity.
  - discriminate.
  - now left.
Defined.
